(** * security-valuator: the Intrinio data provider and its disk cache

    A shallow embedding of [support/financial_cache.py] and
    [data_provider/intrinio_data.py], with the pick of the latest price
    that [valuate_security.py] makes on the provider's result.

    - Python strings are [string]; Python ints are [Z]; [None] is [PyNone].
    - A dict is a [gmap]; the cache keeps [self.cache] as a map from keys
      to the raw response objects.  The size cap of the underlying disk
      store (and the eviction it may trigger on very large stores) is not
      modelled: an entry stays until it is overwritten.
    - The three Intrinio clients are one handler [api] over an abstract
      [World], so that the service may answer the same request differently
      at different times.  Every request issued is appended to [calls].
    - Exceptions are values of [exn]; a computation returns [Ok] or
      [Raise] together with the state it leaves behind.
    - Numeric payloads (prices, statement values) are carried around but
      never computed on; they are [Z] here. *)

From stdpp Require Import base strings pretty list gmap sorting.
From Stdlib Require Import Ascii ZArith Lia.

(** ** Values *)

Record Date := mkDate { year : Z; month : Z; day : Z }.

Module DataTag.
Record t := mk { tag : string }.
End DataTag.

Module StandardizedFinancial.
Record t := mk { data_tag : DataTag.t; value : Z }.
End StandardizedFinancial.

Module StockPriceSummary.
Record t := mk { date : Date; close : Z }.
End StockPriceSummary.

Module HistoricalData.
Record t := mk { date : Date; value : Z }.
End HistoricalData.

(** The objects that reach the cache: [None], a string, or one of the
    three response classes of the SDK with the one attribute read here. *)
Inductive pyobj :=
  | PyNone
  | PyStr (s : string)
  | ApiResponseSecurityStockPrices (stock_prices : list StockPriceSummary.t)
  | ApiResponseCompanyHistoricalData (historical_data : list HistoricalData.t)
  | ApiResponseStandardizedFinancials
      (standardized_financials : list StandardizedFinancial.t).

(** ** Exceptions *)

#[local] Set Warnings "-register-all".
Inductive exn :=
  | ApiException (status : Z) (reason : string)
  | Exception (what : string)
  | AttributeError (attr : string)
  | TypeError (what : string)
  | KeyError (key : Z)
  | DataError (msg : string) (cause : option exn)
  | ValidationError (msg : string) (cause : option exn).

Definition is_ApiException (e : exn) : bool :=
  match e with ApiException _ _ => true | _ => false end.

Inductive result (A : Type) :=
  | Ok (a : A)
  | Raise (e : exn).
Arguments Ok {A} a.
Arguments Raise {A} e.

(** ** String helpers: [%]-formatting, [str.upper], ["-".join] *)

Inductive fmt_arg :=
  | FStr (s : string)
  | FInt (z : Z).

(** [str(x)] on the two kinds of argument. *)
Definition py_str (a : fmt_arg) : string :=
  match a with
  | FStr s => s
  | FInt z => pretty z
  end.

(** [fmt % args] for the conversions the module uses: [%s], [%d] and the
    literal [%%].  [None] stands for the [TypeError] Python raises on a
    wrong number or kind of arguments. *)
Fixpoint py_format (fmt : string) (args : list fmt_arg) : option string :=
  match fmt with
  | EmptyString => match args with [] => Some EmptyString | _ => None end
  | String c rest =>
      if Ascii.eqb c "%"%char then
        match rest with
        | String k rest' =>
            if Ascii.eqb k "%"%char then String "%"%char <$> py_format rest' args
            else
              match args with
              | a :: args' =>
                  if Ascii.eqb k "s"%char then
                    (λ r, py_str a +:+ r) <$> py_format rest' args'
                  else if Ascii.eqb k "d"%char then
                    match a with
                    | FInt z => (λ r, pretty z +:+ r) <$> py_format rest' args'
                    | FStr _ => None
                    end
                  else None
              | [] => None
              end
        | EmptyString => None
        end
      else String c <$> py_format rest args
  end.

Definition upper_ascii (c : ascii) : ascii :=
  let n := Ascii.nat_of_ascii c in
  if (97 <=? n)%nat && (n <=? 122)%nat then Ascii.ascii_of_nat (n - 32) else c.

(** [str.upper] on ASCII text: the letters a to z are mapped to A to Z and
    every other byte is kept.  Python also maps letters outside ASCII, and
    may change the number of characters in doing so; on tickers with such
    letters the keys and request identifiers of the statement operations
    are not those of this model.  Nothing proved below rests on what
    [upper] does to a string, other than that it adds no dash and that
    applying it twice is applying it once. *)
Fixpoint upper (s : string) : string :=
  match s with
  | EmptyString => EmptyString
  | String c s' => String (upper_ascii c) (upper s')
  end.

(** ["-".join(tokens)] *)
Fixpoint dash_join (tokens : list string) : string :=
  match tokens with
  | [] => ""
  | [t] => t
  | t :: rest => t +:+ "-" +:+ dash_join rest
  end.

(** A token is dash free when ["-" not in token]. *)
Fixpoint dash_free (s : string) : bool :=
  match s with
  | EmptyString => true
  | String c s' => negb (Ascii.eqb c "-"%char) && dash_free s'
  end.

(** The key grammar as the specification words it: the prefix, one of the
    three category words, the ticker, a period or year range, a tag or
    statement name, then optionally a frequency and a year. *)
Definition categories : list string := ["statement"; "metric"; "closing-prices"].

Definition opt_token (o : option string) : list string :=
  match o with
  | Some t => [t]
  | None => []
  end.

Definition spec_key_grammar (prefix key : string) : Prop :=
  ∃ category ticker range name frequency year,
    category ∈ categories ∧
    key = dash_join ([prefix; category; ticker; range; name]
                       ++ opt_token frequency ++ opt_token year).

(** ** support/financial_cache.py *)

Module FinancialCache.

Abbreviation t := (gmap (option string) pyobj).

Definition key_absent (key : option string) : bool :=
  match key with
  | None => true
  | Some EmptyString => true
  | Some _ => false
  end.

Definition value_absent (value : pyobj) : bool :=
  match value with
  | PyNone => true
  | PyStr EmptyString => true
  | _ => false
  end.

Definition write (key : option string) (value : pyobj) (self : t) : t :=
  if key_absent key || value_absent value then self
  else <[key := value]> self.

(** [self.cache[key]], with [KeyError] turned into [None]. *)
Definition read (key : option string) (self : t) : pyobj :=
  match self !! key with
  | Some v => v
  | None => PyNone
  end.

(** The stores a process can hold: the initial one is empty and entries
    only come from [write]. *)
Inductive populated : t → Prop :=
  | populated_empty : populated ∅
  | populated_write key value self :
      populated self → populated (write key value self).

End FinancialCache.

(** ** data_provider/intrinio_data.py *)

Definition INTRINIO_CACHE_PREFIX : string := "intrinio".

Inductive request :=
  | get_security_stock_prices
      (ticker start_date end_date frequency : string) (page_size : Z)
  | get_company_historical_data
      (ticker tag frequency start_date end_date : string)
  | get_fundamental_standardized_financials (id : string).

Inductive api_outcome :=
  | Returns (v : pyobj)
  | Raises (e : exn).

(** The three [cache_key = "..." % (...)] expressions of the module. *)
Definition closing_prices_cache_key
    (ticker start_date_str end_date_str : string) : option string :=
  py_format "%s-%s-%s-%s-%s"
    [FStr INTRINIO_CACHE_PREFIX; FStr ticker; FStr start_date_str;
     FStr end_date_str; FStr "closing-prices"].

Definition statement_cache_key
    (ticker statement_name statement_type : string) (i : Z) : option string :=
  py_format "%s-%s-%s-%s-%s-%d"
    [FStr INTRINIO_CACHE_PREFIX; FStr "statement"; FStr ticker;
     FStr statement_name; FStr statement_type; FInt i].

Definition metric_cache_key
    (ticker : string) (start_year end_year : Z) (frequency tag : string)
    : option string :=
  py_format "%s-%s-%s-%d-%d-%s-%s"
    [FStr INTRINIO_CACHE_PREFIX; FStr "metric"; FStr ticker;
     FInt start_year; FInt end_year; FStr frequency; FStr tag].

Definition is_None (o : pyobj) : bool :=
  match o with PyNone => true | _ => false end.

(** [tag_filter_list == None or tag in tag_filter_list] *)
Definition tag_selected (tag_filter_list : option (list string)) (tag : string)
    : bool :=
  match tag_filter_list with
  | None => true
  | Some l => bool_decide (tag ∈ l)
  end.

Definition __transform_financial_stmt__
    (std_financials_list : list StandardizedFinancial.t)
    (tag_filter_list : option (list string)) : gmap string Z :=
  foldl
    (λ results financial,
       let tag := DataTag.tag (StandardizedFinancial.data_tag financial) in
       if tag_selected tag_filter_list tag
       then <[tag := StandardizedFinancial.value financial]> results
       else results)
    ∅ std_financials_list.

Section Provider.

Context {World : Type}.

(** The Intrinio service behind [security_api], [company_api] and
    [fundamentals_api]. *)
Variable api : request → World → api_outcome * World.

(** [intrinio_util.date_to_string] and
    [intrinio_util.get_fiscal_year_period]: the module that defines them
    is not part of the sources at hand, so both are parameters. *)
Variable date_to_string : Date → string.
Variable get_fiscal_year_period : Z → Z → string * string.

Record state := mkState {
  cache : FinancialCache.t;
  world : World;
  calls : list request
}.

Definition M (A : Type) : Type := state → result A * state.

Definition ret {A} (a : A) : M A := λ s, (Ok a, s).

Definition raise {A} (e : exn) : M A := λ s, (Raise e, s).

Definition bind {A B} (m : M A) (k : A → M B) : M B :=
  λ s, match m s with
       | (Ok a, s') => k a s'
       | (Raise e, s') => (Raise e, s')
       end.

Definition try_except {A} (body : M A) (handler : exn → M A) : M A :=
  λ s, match body s with
       | (Ok a, s') => (Ok a, s')
       | (Raise e, s') => handler e s'
       end.

Notation "'let!' x ':=' m 'in' k" := (bind m (λ x, k))
  (at level 10, x name, m at level 100, k at level 200).

Definition fmt (r : option string) : M string :=
  match r with
  | Some s => ret s
  | None => raise (TypeError "not all arguments converted")
  end.

Definition cache_read (key : string) : M pyobj :=
  λ s, (Ok (FinancialCache.read (Some key) (cache s)), s).

Definition cache_write (key : string) (value : pyobj) : M unit :=
  λ s, (Ok tt,
        mkState (FinancialCache.write (Some key) value (cache s))
                (world s) (calls s)).

Definition call (req : request) : M pyobj :=
  λ s, let '(o, w) := api req (world s) in
       let s' := mkState (cache s) w (calls s ++ [req]) in
       match o with
       | Returns v => (Ok v, s')
       | Raises e => (Raise e, s')
       end.

Fixpoint for_each {A S} (l : list A) (body : A → S → M S) (acc : S) : M S :=
  match l with
  | [] => ret acc
  | x :: l' => let! acc' := body x acc in for_each l' body acc'
  end.

(** Attribute reads; an object of another class has no such attribute. *)
Definition stock_prices_of (o : pyobj) : M (list StockPriceSummary.t) :=
  match o with
  | ApiResponseSecurityStockPrices l => ret l
  | _ => raise (AttributeError "stock_prices")
  end.

Definition historical_data_of (o : pyobj) : M (list HistoricalData.t) :=
  match o with
  | ApiResponseCompanyHistoricalData l => ret l
  | _ => raise (AttributeError "historical_data")
  end.

Definition standardized_financials_of (o : pyobj)
    : M (list StandardizedFinancial.t) :=
  match o with
  | ApiResponseStandardizedFinancials l => ret l
  | _ => raise (AttributeError "standardized_financials")
  end.

Definition get_daily_stock_close_prices
    (ticker : string) (start_date end_date : Date) : M (gmap string Z) :=
  let start_date_str := date_to_string start_date in
  let end_date_str := date_to_string end_date in
  let price_dict : gmap string Z := ∅ in
  let! cache_key :=
    fmt (closing_prices_cache_key ticker start_date_str end_date_str) in
  let! api_response := cache_read cache_key in
  let! api_response :=
    if is_None api_response then
      try_except
        (let! api_response :=
           call (get_security_stock_prices
                   ticker start_date_str end_date_str "daily" 100) in
         let! _ := cache_write cache_key api_response in
         ret api_response)
        (λ e,
           if is_ApiException e then
             let! msg := fmt (py_format
               "API Error while reading price data from Intrinio Security API: ('%s', %s - %s)"
               [FStr ticker; FStr start_date_str; FStr end_date_str]) in
             raise (DataError msg (Some e))
           else
             let! msg := fmt (py_format
               "Unknown Error while reading price data from Intrinio Security API: ('%s', %s - %s)"
               [FStr ticker; FStr start_date_str; FStr end_date_str]) in
             raise (ValidationError msg (Some e)))
    else ret api_response in
  let! price_list := stock_prices_of api_response in
  if decide (length price_list = 0%nat) then
    let! msg := fmt (py_format
      "No prices returned from Intrinio Security API: ('%s', %s - %s)"
      [FStr ticker; FStr start_date_str; FStr end_date_str]) in
    raise (DataError msg None)
  else
    ret (foldl
           (λ price_dict price,
              <[date_to_string (StockPriceSummary.date price)
                := StockPriceSummary.close price]> price_dict)
           price_dict price_list).

(** The body of the [for i in range(year_from, year_to + 1)] loop, with
    [ticker] already upper-cased. *)
Definition statement_loop_body
    (ticker statement_name statement_type : string)
    (tag_filter_list : option (list string))
    (i : Z) (hist_statements : gmap Z (gmap string Z))
    : M (gmap Z (gmap string Z)) :=
  let satement_name :=
    ticker +:+ "-" +:+ statement_name +:+ "-" +:+ pretty i
           +:+ "-" +:+ statement_type in
  let! cache_key :=
    fmt (statement_cache_key ticker statement_name statement_type i) in
  let! statement := cache_read cache_key in
  let! statement :=
    if is_None statement then
      let! statement :=
        call (get_fundamental_standardized_financials satement_name) in
      let! _ := cache_write cache_key statement in
      ret statement
    else ret statement in
  let! financials := standardized_financials_of statement in
  ret (<[i := __transform_financial_stmt__ financials tag_filter_list]>
         hist_statements).

Definition __read_historical_financial_statement__
    (ticker statement_name : string) (year_from year_to : Z)
    (tag_filter_list : option (list string)) : M (gmap Z (gmap string Z)) :=
  let hist_statements : gmap Z (gmap string Z) := ∅ in
  let ticker := upper ticker in
  let statement_type := "FY" in
  try_except
    (for_each (seqZ year_from (year_to + 1 - year_from))
       (statement_loop_body ticker statement_name statement_type
          tag_filter_list)
       hist_statements)
    (λ e,
       if is_ApiException e then
         let! msg := fmt (py_format
           "Error retrieving ('%s', %d - %d) -> '%s' from Intrinio Fundamentals API"
           [FStr ticker; FInt year_from; FInt year_to; FStr statement_name]) in
         raise (DataError msg (Some e))
       else raise e).

Definition __read_financial_metrics__
    (ticker : string) (start_year end_year : Z) (tag : string)
    : M (gmap Z Z) :=
  let '(start_date, _) := get_fiscal_year_period start_year 0 in
  let '(_, end_date) := get_fiscal_year_period end_year 0 in
  let frequency := "yearly" in
  let! cache_key :=
    fmt (metric_cache_key ticker start_year end_year frequency tag) in
  let! api_response := cache_read cache_key in
  let! api_response :=
    if is_None api_response then
      try_except
        (let! api_response :=
           call (get_company_historical_data
                   ticker tag frequency start_date end_date) in
         let! _ := cache_write cache_key api_response in
         ret api_response)
        (λ e,
           if is_ApiException e then
             let! msg := fmt (py_format
               "Error retrieving ('%s', %d - %d) -> '%s' from Intrinio Company API"
               [FStr ticker; FInt start_year; FInt end_year; FStr tag]) in
             raise (DataError msg (Some e))
           else
             let! msg := fmt (py_format
               "Error parsing ('%s', %d - %d) -> '%s' from Intrinio Company API"
               [FStr ticker; FInt start_year; FInt end_year; FStr tag]) in
             raise (ValidationError msg (Some e)))
    else ret api_response in
  let! historical_data := historical_data_of api_response in
  if decide (length historical_data = 0%nat) then
    let! msg := fmt (py_format
      "No Data returned for ('%s', %d - %d) -> '%s' from Intrinio Company API"
      [FStr ticker; FInt start_year; FInt end_year; FStr tag]) in
    raise (DataError msg None)
  else
    let converted_response : gmap Z Z := ∅ in
    ret (foldl
           (λ converted_response datapoint,
              <[year (HistoricalData.date datapoint)
                := HistoricalData.value datapoint]> converted_response)
           converted_response historical_data).

Definition __read_financial_metric__
    (ticker : string) (year : Z) (tag : string) : M Z :=
  let! metrics := __read_financial_metrics__ ticker year year tag in
  match metrics !! year with
  | Some v => ret v
  | None => raise (KeyError year)
  end.

Definition get_historical_revenue (ticker : string) (year_from year_to : Z) :=
  __read_financial_metrics__ ticker year_from year_to "totalrevenue".

Definition get_historical_fcff (ticker : string) (year_from year_to : Z) :=
  __read_financial_metrics__ ticker year_from year_to "freecashflow".

Definition get_diluted_eps (ticker : string) (year : Z) :=
  __read_financial_metric__ ticker year "adjdilutedeps".

Definition get_bookvalue_per_share (ticker : string) (year : Z) :=
  __read_financial_metric__ ticker year "bookvaluepershare".

Definition get_outstanding_diluted_shares (ticker : string) (year : Z) :=
  __read_financial_metric__ ticker year "weightedavedilutedsharesos".

Definition get_historical_income_stmt
    (ticker : string) (year_from year_to : Z)
    (tag_filter_list : option (list string)) :=
  __read_historical_financial_statement__
    (upper ticker) "income_statement" year_from year_to tag_filter_list.

Definition get_historical_balance_sheet
    (ticker : string) (year_from year_to : Z)
    (tag_filter_list : option (list string)) :=
  __read_historical_financial_statement__
    (upper ticker) "balance_sheet_statement" year_from year_to tag_filter_list.

Definition get_historical_cashflow_stmt
    (ticker : string) (year_from year_to : Z)
    (tag_filter_list : option (list string)) :=
  __read_historical_financial_statement__
    (upper ticker) "cash_flow_statement" year_from year_to tag_filter_list.

End Provider.

(** ** What the two series operations make of a response object

    The part of [get_daily_stock_close_prices] and of
    [__read_financial_metrics__] that follows the cache lookup and the
    fetch reads no state; these two functions give its outcome as a value,
    for use in the statements below. *)

Definition raise_with {A} (msg : option string) (k : string → exn) : result A :=
  match msg with
  | Some m => Raise (k m)
  | None => Raise (TypeError "not all arguments converted")
  end.

Definition close_prices_of_response (date_to_string : Date → string)
    (ticker start_date_str end_date_str : string) (api_response : pyobj)
    : result (gmap string Z) :=
  match api_response with
  | ApiResponseSecurityStockPrices price_list =>
      if decide (length price_list = 0%nat) then
        raise_with
          (py_format
             "No prices returned from Intrinio Security API: ('%s', %s - %s)"
             [FStr ticker; FStr start_date_str; FStr end_date_str])
          (λ msg, DataError msg None)
      else
        Ok (foldl
              (λ price_dict price,
                 <[date_to_string (StockPriceSummary.date price)
                   := StockPriceSummary.close price]> price_dict)
              ∅ price_list)
  | _ => Raise (AttributeError "stock_prices")
  end.

Definition metrics_of_response
    (ticker : string) (start_year end_year : Z) (tag : string)
    (api_response : pyobj) : result (gmap Z Z) :=
  match api_response with
  | ApiResponseCompanyHistoricalData historical_data =>
      if decide (length historical_data = 0%nat) then
        raise_with
          (py_format
             "No Data returned for ('%s', %d - %d) -> '%s' from Intrinio Company API"
             [FStr ticker; FInt start_year; FInt end_year; FStr tag])
          (λ msg, DataError msg None)
      else
        Ok (foldl
              (λ converted_response datapoint,
                 <[year (HistoricalData.date datapoint)
                   := HistoricalData.value datapoint]> converted_response)
              ∅ historical_data)
  | _ => Raise (AttributeError "historical_data")
  end.

(** What one round of the statement loop makes of the statement object
    it has obtained: the dict with the entry of year [i] added. *)
Definition statement_entry (filter : option (list string))
    (i : Z) (acc : gmap Z (gmap string Z)) (v : pyobj)
    : result (gmap Z (gmap string Z)) :=
  match v with
  | ApiResponseStandardizedFinancials financials =>
      Ok (<[i := __transform_financial_stmt__ financials filter]> acc)
  | _ => Raise (AttributeError "standardized_financials")
  end.

(** The value a dict built by successive [d[key x] = val x] holds at [k]:
    that of the last element whose key is [k]. *)
Definition last_with {A K V} `{EqDecision K}
    (key : A → K) (val : A → V) (k : K) (l : list A) : option V :=
  val <$> last (filter (λ x, key x = k) l).

(** Where an operation finds the response to a request in state [s]: the
    entry the cache holds under [key], or, when the cache holds none, the
    answer of the service.  [served] looks at the service as it is now,
    [always_served] asks the same answer of it at any time. *)
Definition served {World : Type} (api : request → World → api_outcome * World)
    (s : @state World) (key : string) (req : request) (resp : pyobj) : Prop :=
  (cache s !! Some key = Some resp ∧ is_None resp = false) ∨
  (is_None (FinancialCache.read (Some key) (cache s)) = true ∧
   (api req (world s)).1 = Returns resp).

Definition always_served {World : Type}
    (api : request → World → api_outcome * World)
    (s : @state World) (key : string) (req : request) (resp : pyobj) : Prop :=
  (cache s !! Some key = Some resp ∧ is_None resp = false) ∨
  (is_None (FinancialCache.read (Some key) (cache s)) = true ∧
   ∀ w, (api req w).1 = Returns resp).

(** The identifier [__read_historical_financial_statement__] asks the
    fundamentals service for. *)
Definition statement_id (ticker statement_name : string) (i : Z) : string :=
  ticker +:+ "-" +:+ statement_name +:+ "-" +:+ pretty i +:+ "-" +:+ "FY".

(** The tag filter as the specification words it: a tag is asked for when
    no filter is given, or when the filter list names it. *)
Definition tag_requested (tag_filter : option (list string)) (tag : string)
    : Prop :=
  match tag_filter with
  | None => True
  | Some tags => tag ∈ tags
  end.

(** ** A test double for the Intrinio service

    It has no state of its own.  It knows the two AAPL income statements
    of the end-to-end scenario, a short AAPL price and revenue history (for
    the upper-case ticker only), and a ticker EMPTY for which every series
    comes back without records; any other request fails. *)
Module Fake.

Definition financial (tag : string) (value : Z) : StandardizedFinancial.t :=
  StandardizedFinancial.mk (DataTag.mk tag) value.

Definition not_found : api_outcome := Raises (ApiException 404 "Not Found").

Definition api (req : request) (w : unit) : api_outcome * unit :=
  match req with
  | get_fundamental_standardized_financials id =>
      if String.eqb id "AAPL-income_statement-2018-FY" then
        (Returns (ApiResponseStandardizedFinancials
                    [financial "totalrevenue" 1000; financial "other" 5]), w)
      else if String.eqb id "AAPL-income_statement-2019-FY" then
        (Returns (ApiResponseStandardizedFinancials
                    [financial "totalrevenue" 1100]), w)
      else (not_found, w)
  | get_security_stock_prices ticker _ _ _ _ =>
      if String.eqb ticker "AAPL" then
        (Returns (ApiResponseSecurityStockPrices
                    [StockPriceSummary.mk (mkDate 2019 10 1) 100;
                     StockPriceSummary.mk (mkDate 2019 10 2) 101]), w)
      else if String.eqb ticker "aapl" then
        (Returns (ApiResponseSecurityStockPrices
                    [StockPriceSummary.mk (mkDate 2019 10 1) 100;
                     StockPriceSummary.mk (mkDate 2019 10 2) 101]), w)
      else if String.eqb ticker "EMPTY" then
        (Returns (ApiResponseSecurityStockPrices []), w)
      else (not_found, w)
  | get_company_historical_data ticker _ _ _ _ =>
      if String.eqb ticker "AAPL" then
        (Returns (ApiResponseCompanyHistoricalData
                    [HistoricalData.mk (mkDate 2017 12 31) 229;
                     HistoricalData.mk (mkDate 2018 12 31) 265]), w)
      else if String.eqb ticker "EMPTY" then
        (Returns (ApiResponseCompanyHistoricalData []), w)
      else (not_found, w)
  end.

Definition two_digits (n : Z) : string :=
  if (n <? 10)%Z then "0" +:+ pretty n else pretty n.

Definition date_to_string (d : Date) : string :=
  pretty (year d) +:+ "-" +:+ two_digits (month d) +:+ "-"
    +:+ two_digits (day d).

Definition get_fiscal_year_period (y extend_by_days : Z) : string * string :=
  (pretty y +:+ "-01-01", pretty y +:+ "-12-31").

Definition start : @state unit := mkState ∅ tt [].

(** The line items of the AAPL income statement of year [i]. *)
Definition income_statement (i : Z) : list StandardizedFinancial.t :=
  if (i =? 2018)%Z then [financial "totalrevenue" 1000; financial "other" 5]
  else [financial "totalrevenue" 1100].

Definition prices (ticker : string) :=
  get_daily_stock_close_prices api date_to_string ticker
    (mkDate 2019 10 1) (mkDate 2019 10 5).

End Fake.

(** ** valuate_security.py: the latest close price

    The script reads the price of a ticker off the mapping returned by
    [get_daily_stock_close_prices]:
    [price_dict[sorted(list(price_dict.keys()), reverse=True)[0]]]. *)

(** [a >= b] on strings, the order [sorted(..., reverse=True)] puts the
    keys in. *)
Definition string_ge (a b : string) : Prop := String.le b a.

#[global] Instance string_ge_dec : RelDecision string_ge.
Proof. intros a b. unfold string_ge. apply _. Defined.

Definition sorted_keys_reverse (price_dict : gmap string Z) : list string :=
  merge_sort string_ge (map_to_list price_dict).*1.

(** [IndexError] and a [KeyError] on a string key have no constructor of
    their own in [exn]; they are [Exception]s with their class name. *)
Definition latest_price (price_dict : gmap string Z) : result Z :=
  match sorted_keys_reverse price_dict with
  | [] => Raise (Exception "IndexError")
  | k :: _ =>
      match price_dict !! k with
      | Some price => Ok price
      | None => Raise (Exception "KeyError")
      end
  end.

(** ** More test doubles

    [Offline.api] is a service that cannot be reached: every request ends
    in an exception of the HTTP layer, which is not an [ApiException].
    [Silent.api] answers every request with [None].
    [Cached.statements] is a state whose cache already holds the two AAPL
    income statements; the cache of [Cached.garbled] holds a string under
    the key of the AAPL close prices. *)
Module Offline.

Definition api (req : request) (w : unit) : api_outcome * unit :=
  (Raises (Exception "MaxRetryError"), w).

End Offline.

Module Silent.

Definition api (req : request) (w : unit) : api_outcome * unit :=
  (Returns PyNone, w).

End Silent.

Module Cached.

Definition statements : @state unit :=
  mkState
    {[ Some "intrinio-statement-AAPL-income_statement-FY-2018"
       := ApiResponseStandardizedFinancials (Fake.income_statement 2018);
       Some "intrinio-statement-AAPL-income_statement-FY-2019"
       := ApiResponseStandardizedFinancials (Fake.income_statement 2019) ]}
    tt [].

Definition garbled : @state unit :=
  mkState
    {[ Some "intrinio-AAPL-2019-10-01-2019-10-05-closing-prices"
       := PyStr "not a response" ]}
    tt [].

End Cached.

(** * Strings *)

Section StringFacts.

Lemma string_app_cons (c : ascii) (a b : string) :
  String c a +:+ b = String c (a +:+ b).
Proof. reflexivity. Qed.

Lemma string_app_nil_l (s : string) : "" +:+ s = s.
Proof. reflexivity. Qed.

Lemma string_app_nil_r (s : string) : s +:+ "" = s.
Proof.
  induction s as [|c s IH]; [done|]. by rewrite string_app_cons, IH.
Qed.

Lemma string_app_assoc (a b c : string) :
  (a +:+ b) +:+ c = a +:+ (b +:+ c).
Proof.
  induction a as [|x a IH]; [done|]. by rewrite !string_app_cons, IH.
Qed.

Lemma string_app_length (a b : string) :
  String.length (a +:+ b) = (String.length a + String.length b)%nat.
Proof.
  induction a as [|x a IH]; [done|]. rewrite string_app_cons. cbn.
  by rewrite IH.
Qed.

(** Equal concatenations with left parts of equal length agree part by
    part. *)
Lemma string_app_inj_length (a b x y : string) :
  String.length a = String.length b →
  a +:+ x = b +:+ y → a = b ∧ x = y.
Proof.
  revert b. induction a as [|c a IH]; intros [|d b] Hlen Heq;
    rewrite ?string_app_cons, ?string_app_nil_l in Heq;
    simplify_eq/=; [done|].
  destruct (IH b) as [-> ->]; [lia|done|done].
Qed.

(** A dash-free token is delimited by the first dash that follows it. *)
Lemma dash_free_split (a b x y : string) :
  dash_free a = true → dash_free b = true →
  a +:+ "-" +:+ x = b +:+ "-" +:+ y → a = b ∧ x = y.
Proof.
  revert b. induction a as [|c a IH]; intros [|d b] Ha Hb Heq;
    rewrite ?string_app_cons, ?string_app_nil_l in Heq;
    cbn in Ha, Hb.
  - by simplify_eq.
  - injection Heq as <- _. by rewrite Ascii.eqb_refl in Hb.
  - injection Heq as -> _. by rewrite Ascii.eqb_refl in Ha.
  - injection Heq as -> Heq.
    apply andb_true_iff in Ha as [_ Ha]. apply andb_true_iff in Hb as [_ Hb].
    destruct (IH b Ha Hb Heq) as [-> ->]. done.
Qed.

Lemma dash_free_upper (s : string) :
  dash_free s = true → dash_free (upper s) = true.
Proof.
  induction s as [|c s IH]; [done|]. cbn.
  intros [Hc Hs]%andb_true_iff. rewrite (IH Hs), andb_true_r.
  revert Hc. generalize c. clear. intros c.
  destruct c as [[] [] [] [] [] [] [] []]; vm_compute; done.
Qed.

Lemma pretty_N_go_dash_free (x : N) (s : string) :
  dash_free s = true → dash_free (pretty_N_go x s) = true.
Proof.
  revert s. induction (N.lt_wf_0 x) as [x _ IH]; intros s Hs.
  assert (x = 0 ∨ 0 < x)%N as [->|Hx] by lia.
  - by rewrite pretty_N_go_0.
  - rewrite pretty_N_go_step by done. apply IH.
    { by apply N.div_lt. }
    cbn. rewrite Hs, andb_true_r.
    unfold pretty_N_char. by repeat case_match.
Qed.

Lemma pretty_N_go_nonempty (x : N) (s : string) :
  s ≠ "" → pretty_N_go x s ≠ "".
Proof.
  revert s. induction (N.lt_wf_0 x) as [x _ IH]; intros s Hs.
  assert (x = 0 ∨ 0 < x)%N as [->|Hx] by lia.
  - by rewrite pretty_N_go_0.
  - rewrite pretty_N_go_step by done. apply IH; [by apply N.div_lt|done].
Qed.

Lemma pretty_N_dash_free (x : N) : dash_free (pretty x) = true.
Proof.
  unfold pretty, pretty_N. case_decide; [done|].
  by apply pretty_N_go_dash_free.
Qed.

Lemma pretty_N_nonempty (x : N) : pretty x ≠ "".
Proof.
  unfold pretty, pretty_N. case_decide; [done|].
  assert (0 < x)%N as Hx by lia.
  rewrite pretty_N_go_step by done. by apply pretty_N_go_nonempty.
Qed.

Lemma string_app_inj_r (a b c : string) : a +:+ c = b +:+ c → a = b.
Proof.
  intros Heq. assert (String.length a = String.length b) as Hlen.
  { apply (f_equal String.length) in Heq.
    rewrite !string_app_length in Heq. lia. }
  by destruct (string_app_inj_length a b c c Hlen Heq).
Qed.

(** [str] of an int is delimited by the dash that follows it, whatever
    its sign. *)
Lemma pretty_Z_split (z1 z2 : Z) (x y : string) :
  pretty z1 +:+ "-" +:+ x = pretty z2 +:+ "-" +:+ y → z1 = z2 ∧ x = y.
Proof.
  assert (∀ z : Z, (0 ≤ z)%Z → ∃ n : N, pretty z = pretty n) as Hnn.
  { intros [|p|p] ?; [by exists 0%N|by exists (N.pos p)|lia]. }
  assert (∀ z : Z, (z < 0)%Z → ∃ n : N, pretty z = "-" +:+ pretty n) as Hneg.
  { intros [|p|p] ?; [lia|lia|by exists (N.pos p)]. }
  intros Heq.
  destruct (decide (0 ≤ z1)%Z) as [H1|H1], (decide (0 ≤ z2)%Z) as [H2|H2].
  - destruct (Hnn z1 H1) as [n1 E1], (Hnn z2 H2) as [n2 E2].
    rewrite E1, E2 in Heq.
    apply dash_free_split in Heq as [Hp ->]; auto using pretty_N_dash_free.
    split; [|done]. apply (inj pretty). congruence.
  - destruct (Hnn z1 H1) as [n1 E1], (Hneg z2 ltac:(lia)) as [n2 E2].
    rewrite E1, E2, string_app_assoc in Heq.
    apply (dash_free_split _ "") in Heq as [Hp _];
      auto using pretty_N_dash_free.
    by destruct (pretty_N_nonempty n1).
  - destruct (Hneg z1 ltac:(lia)) as [n1 E1], (Hnn z2 H2) as [n2 E2].
    rewrite E1, E2, string_app_assoc in Heq.
    apply (dash_free_split "") in Heq as [Hp _];
      auto using pretty_N_dash_free.
    by destruct (pretty_N_nonempty n2).
  - destruct (Hneg z1 ltac:(lia)) as [n1 E1], (Hneg z2 ltac:(lia)) as [n2 E2].
    rewrite E1, E2, !string_app_assoc in Heq.
    apply (inj (String.app "-")) in Heq.
    apply dash_free_split in Heq as [Hp ->]; auto using pretty_N_dash_free.
    split; [|done]. apply (inj pretty). congruence.
Qed.

(** Reading a key from its right end. *)

Lemma dash_free_app_dash (a b : string) : dash_free (a +:+ "-" +:+ b) = false.
Proof.
  induction a as [|c a IH]; [done|].
  rewrite string_app_cons. cbn. by rewrite IH, andb_false_r.
Qed.

(** A dash-free token is delimited by the last dash that precedes it. *)
Lemma dash_free_split_r (x y a b : string) :
  dash_free a = true → dash_free b = true →
  x +:+ "-" +:+ a = y +:+ "-" +:+ b → x = y ∧ a = b.
Proof.
  intros Ha Hb. revert y. induction x as [|c x IH]; intros [|d y] Heq;
    rewrite ?string_app_cons, ?string_app_nil_l in Heq.
  - by injection Heq as ->.
  - injection Heq as _ Heq. rewrite Heq in Ha.
    assert (dash_free (y +:+ String "-" b) = false) as Hd
      by apply dash_free_app_dash.
    congruence.
  - injection Heq as _ Heq. rewrite <-Heq in Hb.
    assert (dash_free (x +:+ String "-" a) = false) as Hd
      by apply dash_free_app_dash.
    congruence.
  - injection Heq as -> Heq. by destruct (IH y Heq) as [-> ->].
Qed.

(** Equal concatenations with right parts of equal length agree part by
    part. *)
Lemma string_app_inj_length_r (a b x y : string) :
  String.length x = String.length y →
  a +:+ x = b +:+ y → a = b ∧ x = y.
Proof.
  intros Hlen Heq. apply string_app_inj_length; [|done].
  apply (f_equal String.length) in Heq.
  rewrite !string_app_length in Heq. lia.
Qed.

Lemma pretty_Z_nonneg (z : Z) : (0 ≤ z)%Z → ∃ n : N, pretty z = pretty n.
Proof. destruct z as [|p|p]; intros ?; [by exists 0%N|by exists (N.pos p)|lia]. Qed.

Lemma pretty_Z_neg (z : Z) :
  (z < 0)%Z → ∃ n : N, pretty z = "-" +:+ pretty n.
Proof. destruct z as [|p|p]; intros ?; [lia|lia|by exists (N.pos p)]. Qed.

Lemma pretty_Z_nonneg_dash_free (z : Z) :
  (0 ≤ z)%Z → dash_free (pretty z) = true.
Proof.
  intros Hz. destruct (pretty_Z_nonneg z Hz) as [n ->].
  apply pretty_N_dash_free.
Qed.

(** [str] of an int that ends a key after ["Y-"] is delimited from the
    right, whatever its sign and whatever precedes. *)
Lemma pretty_Z_split_r (p1 p2 : string) (z1 z2 : Z) :
  p1 +:+ "Y-" +:+ pretty z1 = p2 +:+ "Y-" +:+ pretty z2 →
  p1 = p2 ∧ z1 = z2.
Proof.
  assert (∀ (p q : string), p +:+ "Y-" +:+ q = (p +:+ "Y") +:+ "-" +:+ q)
    as Hy by (intros; by rewrite string_app_assoc).
  assert (∀ (p q : string),
            p +:+ "Y-" +:+ "-" +:+ q = (p +:+ "Y-") +:+ "-" +:+ q)
    as Hyy by (intros; by rewrite string_app_assoc).
  intros Heq.
  destruct (decide (0 ≤ z1)%Z) as [H1|H1], (decide (0 ≤ z2)%Z) as [H2|H2].
  - destruct (pretty_Z_nonneg z1 H1) as [n1 E1],
      (pretty_Z_nonneg z2 H2) as [n2 E2].
    rewrite E1, E2, (Hy p1), (Hy p2) in Heq.
    apply dash_free_split_r in Heq as [Hp Hn]; auto using pretty_N_dash_free.
    apply string_app_inj_r in Hp as ->. split; [done|].
    apply (inj pretty). congruence.
  - destruct (pretty_Z_nonneg z1 H1) as [n1 E1],
      (pretty_Z_neg z2 ltac:(lia)) as [n2 E2].
    rewrite E1, E2, (Hy p1), (Hyy p2) in Heq.
    apply dash_free_split_r in Heq as [Hp _]; auto using pretty_N_dash_free.
    change (p2 +:+ "Y-") with (p2 +:+ "Y" +:+ "-") in Hp.
    rewrite <-string_app_assoc in Hp.
    by apply string_app_inj_length_r in Hp as [_ ?].
  - destruct (pretty_Z_neg z1 ltac:(lia)) as [n1 E1],
      (pretty_Z_nonneg z2 H2) as [n2 E2].
    rewrite E1, E2, (Hy p2), (Hyy p1) in Heq.
    apply dash_free_split_r in Heq as [Hp _]; auto using pretty_N_dash_free.
    change (p1 +:+ "Y-") with (p1 +:+ "Y" +:+ "-") in Hp.
    rewrite <-string_app_assoc in Hp.
    by apply string_app_inj_length_r in Hp as [_ ?].
  - destruct (pretty_Z_neg z1 ltac:(lia)) as [n1 E1],
      (pretty_Z_neg z2 ltac:(lia)) as [n2 E2].
    rewrite E1, E2, (Hyy p1), (Hyy p2) in Heq.
    apply dash_free_split_r in Heq as [Hp Hn]; auto using pretty_N_dash_free.
    apply string_app_inj_r in Hp as ->. split; [done|].
    apply (inj pretty). congruence.
Qed.

(** No [str] of a number starts with a letter p. *)
Lemma pretty_N_go_no_p (x : N) (s : string) :
  (∀ r, s ≠ String "p" r) → ∀ r, pretty_N_go x s ≠ String "p" r.
Proof.
  revert s. induction (N.lt_wf_0 x) as [x _ IH]; intros s Hs.
  assert (x = 0 ∨ 0 < x)%N as [->|Hx] by lia.
  - by rewrite pretty_N_go_0.
  - rewrite pretty_N_go_step by done. apply IH; [by apply N.div_lt|].
    intros r [= Hc _]. revert Hc. unfold pretty_N_char.
    by repeat case_match.
Qed.

Lemma pretty_N_not_prices (n : N) : pretty n ≠ "prices".
Proof.
  unfold pretty, pretty_N. case_decide; [done|].
  by apply pretty_N_go_no_p.
Qed.

End StringFacts.

(** * Cache keys *)

Section Keys.

Lemma closing_prices_cache_key_eq ticker s e :
  closing_prices_cache_key ticker s e
  = Some ("intrinio-" +:+ ticker +:+ "-" +:+ s +:+ "-" +:+ e
            +:+ "-closing-prices").
Proof. reflexivity. Qed.

Lemma statement_cache_key_eq ticker name type i :
  statement_cache_key ticker name type i
  = Some ("intrinio-statement-" +:+ ticker +:+ "-" +:+ name +:+ "-"
            +:+ type +:+ "-" +:+ pretty i).
Proof.
  unfold statement_cache_key. cbn -[pretty].
  by rewrite string_app_nil_r.
Qed.

Lemma metric_cache_key_eq ticker sy ey frequency tag :
  metric_cache_key ticker sy ey frequency tag
  = Some ("intrinio-metric-" +:+ ticker +:+ "-" +:+ pretty sy +:+ "-"
            +:+ pretty ey +:+ "-" +:+ frequency +:+ "-" +:+ tag).
Proof.
  unfold metric_cache_key. cbn -[pretty].
  by rewrite string_app_nil_r.
Qed.

(** C2, as worded, fails on the key of the daily close prices: the token
    after the prefix is the ticker, and the category word comes last. *)
Lemma closing_prices_key_outside_spec_grammar :
  ∃ key,
    closing_prices_cache_key "AAPL" "2019-10-01" "2019-10-05" = Some key ∧
    ¬ spec_key_grammar INTRINIO_CACHE_PREFIX key.
Proof.
  eexists. split; [reflexivity|].
  intros (category & ticker & range & name & frequency & yr & Hcat & Heq).
  unfold categories in Hcat. cbn [dash_join app] in Heq.
  rewrite !elem_of_cons, elem_of_nil in Hcat.
  destruct Hcat as [->|[->|[->|[]]]];
    rewrite ?string_app_cons, ?string_app_nil_l in Heq; simplify_eq.
Qed.

(** C2 (amended): the layout of the three keys.  All start with the fixed
    prefix.  Statement keys are
    prefix-statement-TICKER-name-FY-year (the ticker upper-cased), metric
    keys are prefix-metric-ticker-start_year-end_year-yearly-tag, and
    close-price keys are prefix-ticker-start-end-closing-prices. *)
Theorem cache_key_layouts ticker start_date_str end_date_str
    statement_name i start_year end_year tag :
  closing_prices_cache_key ticker start_date_str end_date_str
  = Some (dash_join [INTRINIO_CACHE_PREFIX; ticker; start_date_str;
                     end_date_str; "closing-prices"]) ∧
  statement_cache_key (upper ticker) statement_name "FY" i
  = Some (dash_join [INTRINIO_CACHE_PREFIX; "statement"; upper ticker;
                     statement_name; "FY"; pretty i]) ∧
  metric_cache_key ticker start_year end_year "yearly" tag
  = Some (dash_join [INTRINIO_CACHE_PREFIX; "metric"; ticker;
                     pretty start_year; pretty end_year; "yearly"; tag]).
Proof.
  rewrite closing_prices_cache_key_eq, statement_cache_key_eq,
    metric_cache_key_eq.
  done.
Qed.

Lemma some_key_inj (a x y : string) :
  Some (a +:+ x) = Some (a +:+ y) → x = y.
Proof. intros [= H]. by apply (inj (String.app a)) in H. Qed.

(** The three keys, grouped from the left, for reading from the right. *)
Lemma statement_cache_key_eq_r ticker name i :
  statement_cache_key ticker name "FY" i
  = Some (((("intrinio-statement-" +:+ ticker) +:+ "-" +:+ name) +:+ "-F")
            +:+ "Y-" +:+ pretty i).
Proof.
  rewrite statement_cache_key_eq. f_equal. by rewrite !string_app_assoc.
Qed.

Lemma metric_cache_key_eq_r ticker sy ey tag :
  metric_cache_key ticker sy ey "yearly" tag
  = Some ((((("intrinio-metric-" +:+ ticker) +:+ "-" +:+ pretty sy)
              +:+ "-" +:+ pretty ey) +:+ "-" +:+ "yearly") +:+ "-" +:+ tag).
Proof.
  rewrite metric_cache_key_eq. f_equal. by rewrite !string_app_assoc.
Qed.

Lemma closing_prices_cache_key_eq_r ticker s e :
  closing_prices_cache_key ticker s e
  = Some ((((((("intrinio-" +:+ ticker) +:+ "-") +:+ s) +:+ "-") +:+ e)
             +:+ "-closing") +:+ "-" +:+ "prices").
Proof.
  rewrite closing_prices_cache_key_eq. f_equal. by rewrite !string_app_assoc.
Qed.

(** C5, as worded, fails: a ticker or tag that itself contains dashes can
    shift the token boundaries, so that two different metric requests get
    one key; and statement keys are built from the upper-cased ticker, so
    that tickers differing in case only get one key.  The last two
    collisions show what the amended statement keeps out: a ticker ending
    in a dash next to a negative year, and the statement helper called
    with a statement name that contains a dash. *)
Lemma cache_key_collisions :
  (metric_cache_key "A" 1 2 "yearly" "x-1-2-yearly-y"
   = metric_cache_key "A-1-2-yearly-x" 1 2 "yearly" "y"
   ∧ "A" ≠ "A-1-2-yearly-x" ∧ "x-1-2-yearly-y" ≠ "y") ∧
  (statement_cache_key (upper "aapl") "income_statement" "FY" 2018
   = statement_cache_key (upper "AAPL") "income_statement" "FY" 2018
   ∧ "aapl" ≠ "AAPL") ∧
  (metric_cache_key "A-" 5 2 "yearly" "t"
   = metric_cache_key "A" (-5) 2 "yearly" "t"
   ∧ "A-" ≠ "A") ∧
  (statement_cache_key (upper "A") "B-C" "FY" 2018
   = statement_cache_key (upper "A-B") "C" "FY" 2018
   ∧ upper "A" ≠ upper "A-B").
Proof.
  split; [|split; [|split]]; (split; [vm_compute; reflexivity|]).
  - split; discriminate.
  - discriminate.
  - discriminate.
  - vm_compute. discriminate.
Qed.

(** C5 (amended): every key builder is a function of its arguments, and
    the keys of one site tell the requests apart as follows.  Close-price
    keys determine the ticker and both date strings for any tickers, date
    strings having one common length.  Statement keys determine the
    upper-cased ticker, the statement name and the year for any tickers,
    the statement names being dash free (as the three names the public
    operations use are).  Metric keys determine ticker, year range and tag
    when the tickers are dash free, and also, for any tickers, when the
    tags are dash free and the years are not negative.  A statement key is
    never a metric key nor a close-price key; a close-price key is not a
    metric key when the tag is dash free, nor when the ticker of the
    close-price request is dash free and is not the word metric. *)
Theorem cache_keys_distinct :
  (∀ t1 s1 e1 t2 s2 e2,
     String.length s1 = String.length s2 →
     String.length e1 = String.length e2 →
     closing_prices_cache_key t1 s1 e1 = closing_prices_cache_key t2 s2 e2 →
     t1 = t2 ∧ s1 = s2 ∧ e1 = e2) ∧
  (∀ t1 s1 e1 t2 s2 e2,
     dash_free t1 = true → dash_free t2 = true →
     String.length s1 = String.length s2 →
     closing_prices_cache_key t1 s1 e1 = closing_prices_cache_key t2 s2 e2 →
     t1 = t2 ∧ s1 = s2 ∧ e1 = e2) ∧
  (∀ t1 n1 y1 t2 n2 y2,
     dash_free n1 = true → dash_free n2 = true →
     statement_cache_key (upper t1) n1 "FY" y1
     = statement_cache_key (upper t2) n2 "FY" y2 →
     upper t1 = upper t2 ∧ n1 = n2 ∧ y1 = y2) ∧
  (∀ t1 sy1 ey1 tag1 t2 sy2 ey2 tag2,
     dash_free t1 = true → dash_free t2 = true →
     metric_cache_key t1 sy1 ey1 "yearly" tag1
     = metric_cache_key t2 sy2 ey2 "yearly" tag2 →
     t1 = t2 ∧ sy1 = sy2 ∧ ey1 = ey2 ∧ tag1 = tag2) ∧
  (∀ t1 sy1 ey1 tag1 t2 sy2 ey2 tag2,
     dash_free tag1 = true → dash_free tag2 = true →
     (0 ≤ sy1)%Z → (0 ≤ ey1)%Z → (0 ≤ sy2)%Z → (0 ≤ ey2)%Z →
     metric_cache_key t1 sy1 ey1 "yearly" tag1
     = metric_cache_key t2 sy2 ey2 "yearly" tag2 →
     t1 = t2 ∧ sy1 = sy2 ∧ ey1 = ey2 ∧ tag1 = tag2) ∧
  (∀ t1 sy ey tag t n y,
     metric_cache_key t1 sy ey "yearly" tag
     ≠ statement_cache_key (upper t) n "FY" y) ∧
  (∀ t1 s e t n y,
     closing_prices_cache_key t1 s e
     ≠ statement_cache_key (upper t) n "FY" y) ∧
  (∀ t1 s e t sy ey tag,
     dash_free tag = true ∨ (dash_free t1 = true ∧ t1 ≠ "metric") →
     closing_prices_cache_key t1 s e ≠ metric_cache_key t sy ey "yearly" tag).
Proof.
  repeat apply conj.
  - intros t1 s1 e1 t2 s2 e2 Hs He Heq.
    rewrite !closing_prices_cache_key_eq_r in Heq. apply (inj Some) in Heq.
    apply (string_app_inj_r _ _ ("-" +:+ "prices")) in Heq.
    apply (string_app_inj_r _ _ "-closing") in Heq.
    apply (string_app_inj_length_r _ _ e1 e2) in Heq as [Heq ->]; [|done].
    apply (string_app_inj_r _ _ "-") in Heq.
    apply (string_app_inj_length_r _ _ s1 s2) in Heq as [Heq ->]; [|done].
    apply (string_app_inj_r _ _ "-") in Heq.
    by apply (inj (String.app "intrinio-")) in Heq as ->.
  - intros t1 s1 e1 t2 s2 e2 Ht1 Ht2 Hlen Heq.
    rewrite !closing_prices_cache_key_eq in Heq.
    apply some_key_inj, dash_free_split in Heq as [-> Heq]; [|done..].
    apply string_app_inj_length in Heq as [-> Heq]; [|done].
    apply (inj (String.app "-")) in Heq.
    by apply string_app_inj_r in Heq as ->.
  - intros t1 n1 y1 t2 n2 y2 Hn1 Hn2 Heq.
    rewrite !statement_cache_key_eq_r in Heq. apply (inj Some) in Heq.
    apply pretty_Z_split_r in Heq as [Heq ->].
    apply (string_app_inj_r _ _ "-F") in Heq.
    apply (dash_free_split_r _ _ n1 n2) in Heq as [Heq ->]; [|done..].
    by apply (inj (String.app "intrinio-statement-")) in Heq as ->.
  - intros t1 sy1 ey1 tag1 t2 sy2 ey2 tag2 Ht1 Ht2 Heq.
    rewrite !metric_cache_key_eq in Heq.
    apply some_key_inj, dash_free_split in Heq as [-> Heq]; [|done..].
    apply pretty_Z_split in Heq as [-> Heq].
    apply pretty_Z_split in Heq as [-> Heq].
    by apply (inj (String.app "yearly-")) in Heq as ->.
  - intros t1 sy1 ey1 tag1 t2 sy2 ey2 tag2 Htag1 Htag2 Hsy1 Hey1 Hsy2 Hey2 Heq.
    rewrite !metric_cache_key_eq_r in Heq. apply (inj Some) in Heq.
    apply (dash_free_split_r _ _ tag1 tag2) in Heq as [Heq ->]; [|done..].
    apply (dash_free_split_r _ _ "yearly" "yearly") in Heq as [Heq _];
      [|done..].
    apply (dash_free_split_r _ _ (pretty ey1) (pretty ey2)) in Heq
      as [Heq Hey]; auto using pretty_Z_nonneg_dash_free.
    apply (dash_free_split_r _ _ (pretty sy1) (pretty sy2)) in Heq
      as [Heq Hsy]; auto using pretty_Z_nonneg_dash_free.
    apply (inj (String.app "intrinio-metric-")) in Heq as ->.
    by apply (inj pretty) in Hey as ->; apply (inj pretty) in Hsy as ->.
  - intros t1 sy ey tag t n y.
    rewrite metric_cache_key_eq, statement_cache_key_eq.
    rewrite !string_app_cons. intros [=].
  - intros t1 s e t n y Heq.
    rewrite closing_prices_cache_key_eq_r, statement_cache_key_eq_r in Heq.
    apply (inj Some) in Heq.
    destruct (decide (0 ≤ y)%Z) as [Hy|Hy].
    + destruct (pretty_Z_nonneg y Hy) as [k Ek]. rewrite Ek in Heq.
      change (?p +:+ "Y-" +:+ pretty k) with (p +:+ "Y" +:+ "-" +:+ pretty k)
        in Heq.
      rewrite <-(string_app_assoc _ "Y") in Heq.
      apply (dash_free_split_r _ _ "prices" (pretty k)) in Heq as [_ Heq];
        auto using pretty_N_dash_free.
      by destruct (pretty_N_not_prices k).
    + destruct (pretty_Z_neg y ltac:(lia)) as [k Ek]. rewrite Ek in Heq.
      rewrite <-(string_app_assoc _ "Y-") in Heq.
      apply (dash_free_split_r _ _ "prices" (pretty k)) in Heq as [_ Heq];
        auto using pretty_N_dash_free.
      by destruct (pretty_N_not_prices k).
  - intros t1 s e t sy ey tag [Htag|[Ht1 Hm]] Heq.
    + rewrite closing_prices_cache_key_eq_r, metric_cache_key_eq_r in Heq.
      apply (inj Some) in Heq.
      apply (dash_free_split_r _ _ "prices" tag) in Heq as [Heq _]; [|done..].
      change (?p +:+ "-closing") with (p +:+ "-" +:+ "closing") in Heq.
      by apply (dash_free_split_r _ _ "closing" "yearly") in Heq as [_ ?].
    + rewrite closing_prices_cache_key_eq, metric_cache_key_eq in Heq.
      apply (some_key_inj "intrinio-" _ ("metric-" +:+ _)) in Heq.
      apply (dash_free_split _ "metric") in Heq as [? _]; done.
Qed.

Lemma cache_keys_distinct_witness :
  closing_prices_cache_key "BRK-A" "2019-10-01" "2019-10-05"
  ≠ closing_prices_cache_key "BRK-B" "2019-10-01" "2019-10-05" ∧
  statement_cache_key (upper "BRK-A") "income_statement" "FY" 2018
  ≠ statement_cache_key (upper "BRK-B") "income_statement" "FY" 2018 ∧
  metric_cache_key "AAPL" 2018 2019 "yearly" "totalrevenue"
  ≠ metric_cache_key "MSFT" 2018 2019 "yearly" "totalrevenue" ∧
  metric_cache_key "BRK-A" 2018 2019 "yearly" "totalrevenue"
  ≠ metric_cache_key "BRK-B" 2018 2019 "yearly" "totalrevenue".
Proof.
  destruct cache_keys_distinct
    as (Hprice & _ & Hstatement & Hmetric & Hmetric' & _).
  split; [|split; [|split]]; intros Heq.
  - destruct (Hprice "BRK-A" "2019-10-01" "2019-10-05"
                "BRK-B" "2019-10-01" "2019-10-05" eq_refl eq_refl Heq)
      as [Ht _].
    discriminate Ht.
  - destruct (Hstatement "BRK-A" "income_statement" 2018%Z
                "BRK-B" "income_statement" 2018%Z eq_refl eq_refl Heq)
      as [Ht _].
    vm_compute in Ht. discriminate Ht.
  - destruct (Hmetric "AAPL" 2018%Z 2019%Z "totalrevenue"
                "MSFT" 2018%Z 2019%Z "totalrevenue" eq_refl eq_refl Heq)
      as [Ht _].
    discriminate Ht.
  - destruct (Hmetric' "BRK-A" 2018%Z 2019%Z "totalrevenue"
                "BRK-B" 2018%Z 2019%Z "totalrevenue"
                eq_refl eq_refl ltac:(lia) ltac:(lia) ltac:(lia) ltac:(lia)
                Heq) as [Ht _].
    discriminate Ht.
Defined.

End Keys.

(** * The cache store *)

Section CacheStore.

Import FinancialCache.

Lemma populated_sound (self : FinancialCache.t) :
  populated self →
  ∀ key value, self !! key = Some value →
    key_absent key = false ∧ value_absent value = false.
Proof.
  induction 1 as [|k v self _ IH]; intros key value Hl.
  - by rewrite lookup_empty in Hl.
  - unfold write in Hl.
    destruct (key_absent k) eqn:Hk, (value_absent v) eqn:Hv; cbn in Hl;
      try by apply IH.
    destruct (decide (k = key)) as [->|Hne].
    + rewrite lookup_insert_eq in Hl. by simplify_eq.
    + rewrite lookup_insert_ne in Hl by done. by apply IH.
Qed.

(** C7, as worded, fails when the key already holds an entry: the skipped
    write leaves it in place and the next read returns it. *)
Lemma skipped_write_keeps_old_entry :
  let self := write (Some "k") (PyStr "v") ∅ in
  value_absent (PyStr "") = true ∧
  write (Some "k") (PyStr "") self = self ∧
  read (Some "k") (write (Some "k") (PyStr "") self) = PyStr "v" ∧
  PyStr "v" ≠ PyNone.
Proof.
  cbn. split; [done|]. split; [done|]. split; [|done].
  unfold read, write. cbn. by rewrite lookup_insert_eq.
Qed.

(** C7 (amended): a write with an empty or absent key, or an empty or
    absent value, leaves the store as it was, so the next read of that
    key returns what it returned before: [None] when the key held nothing
    (always so for an empty or absent key, in a store filled through
    [write]).  A read of a key that holds nothing returns [None]. *)
Theorem write_absent_is_noop (key : option string) (value : pyobj)
    (self : FinancialCache.t) :
  key_absent key || value_absent value = true →
  write key value self = self ∧
  read key (write key value self) = read key self ∧
  (self !! key = None → read key (write key value self) = PyNone) ∧
  (populated self → key_absent key = true →
   read key (write key value self) = PyNone).
Proof.
  intros Habs. assert (write key value self = self) as Hw.
  { unfold write. by rewrite Habs. }
  rewrite Hw. split; [done|]. split; [done|]. split.
  - intros Hnone. unfold read. by rewrite Hnone.
  - intros Hpop Hkey. unfold read.
    destruct (self !! key) as [v|] eqn:Hl; [|done].
    destruct (populated_sound self Hpop key v Hl). congruence.
Qed.

Lemma write_absent_is_noop_witness :
  read (Some "") (write (Some "") (PyStr "v") ∅) = PyNone.
Proof.
  apply (write_absent_is_noop (Some "") (PyStr "v") ∅); [reflexivity| |].
  - apply populated_empty.
  - reflexivity.
Defined.

End CacheStore.

(** * Dicts built in a loop *)

Section Dicts.

Context {A K V : Type} `{Countable K}.
Implicit Types (l : list A) (d : gmap K V) (k : K).

Lemma last_with_cons (key : A → K) (val : A → V) k x l :
  last_with key val k (x :: l)
  = match last_with key val k l with
    | Some v => Some v
    | None => if decide (key x = k) then Some (val x) else None
    end.
Proof.
  unfold last_with. rewrite filter_cons.
  destruct (decide (key x = k)) as [Hk|Hk].
  - rewrite last_cons. by destruct (last _).
  - by destruct (last _).
Qed.

Lemma foldl_insert_lookup (key : A → K) (val : A → V) l d k :
  foldl (λ d x, <[key x := val x]> d) d l !! k
  = match last_with key val k l with
    | Some v => Some v
    | None => d !! k
    end.
Proof.
  revert d. induction l as [|x l IH]; intros d; [done|].
  cbn [foldl]. rewrite IH, last_with_cons.
  destruct (last_with key val k l); [done|].
  destruct (decide (key x = k)) as [->|Hne].
  - by rewrite lookup_insert_eq.
  - by rewrite lookup_insert_ne.
Qed.

Lemma foldl_insert_if_lookup (sel : K → bool) (key : A → K) (val : A → V)
    l d k :
  foldl (λ d x, if sel (key x) then <[key x := val x]> d else d) d l !! k
  = if sel k then
      match last_with key val k l with
      | Some v => Some v
      | None => d !! k
      end
    else d !! k.
Proof.
  revert d. induction l as [|x l IH]; intros d.
  - cbn. by destruct (sel k).
  - cbn [foldl]. rewrite IH, last_with_cons.
    destruct (sel k) eqn:Hk.
    + destruct (last_with key val k l); [done|].
      destruct (decide (key x = k)) as [->|Hne].
      * by rewrite Hk, lookup_insert_eq.
      * destruct (sel (key x)); [by rewrite lookup_insert_ne|done].
    + destruct (sel (key x)) eqn:Hx; [|done].
      rewrite lookup_insert_ne; [done|]. intros Heq. congruence.
Qed.

Lemma last_with_Some_elem (key : A → K) (val : A → V) k l v :
  last_with key val k l = Some v → ∃ x, x ∈ l ∧ key x = k ∧ val x = v.
Proof.
  unfold last_with. intros Hl.
  destruct (last _) as [x|] eqn:Hlast; [|done]. injection Hl as <-.
  apply last_Some_elem_of, list_elem_of_filter in Hlast as [Hk Hx].
  by exists x.
Qed.

Lemma last_with_elem_is_Some (key : A → K) (val : A → V) l x :
  x ∈ l → is_Some (last_with key val (key x) l).
Proof.
  intros Hx. unfold last_with.
  destruct (last _) as [y|] eqn:Hlast; [by eexists|].
  apply last_None in Hlast.
  assert (x ∈ filter (λ y, key y = key x) l) as Hin
    by (by apply list_elem_of_filter).
  rewrite Hlast in Hin. by apply elem_of_nil in Hin.
Qed.

(** With keys that do not repeat, each element is the last one with its
    key. *)
Lemma last_with_NoDup (key : A → K) (val : A → V) l x :
  NoDup (key <$> l) → x ∈ l → last_with key val (key x) l = Some (val x).
Proof.
  induction l as [|y l IH]; intros Hnd Hx; [by apply elem_of_nil in Hx|].
  rewrite fmap_cons in Hnd. apply NoDup_cons in Hnd as [Hy Hnd].
  rewrite last_with_cons. apply elem_of_cons in Hx as [->|Hx].
  - destruct (last_with key val (key y) l) as [v|] eqn:Hl.
    + apply last_with_Some_elem in Hl as (z & Hz & Hk & _).
      destruct Hy. rewrite <-Hk. by apply list_elem_of_fmap_2.
    + by rewrite decide_True.
  - by rewrite (IH Hnd Hx).
Qed.

End Dicts.

Section Transform.

Implicit Types (l : list StandardizedFinancial.t) (tag : string).

Local Abbreviation tag_of :=
  (λ f, DataTag.tag (StandardizedFinancial.data_tag f)).

(** What [__transform_financial_stmt__] holds at a tag: nothing if the
    filter leaves the tag out, else the value of the last line item with
    that tag. *)
Lemma transform_lookup l filter tag :
  __transform_financial_stmt__ l filter !! tag
  = if tag_selected filter tag
    then last_with tag_of StandardizedFinancial.value tag l
    else None.
Proof.
  unfold __transform_financial_stmt__.
  rewrite (foldl_insert_if_lookup (tag_selected filter) tag_of
             StandardizedFinancial.value).
  rewrite lookup_empty.
  destruct (tag_selected filter tag); [|done].
  by destruct (last_with _ _ _ _).
Qed.

(** With a filter, the entries are those of the unfiltered statement at
    the requested tags. *)
Lemma transform_filtered l filter tag :
  __transform_financial_stmt__ l filter !! tag
  = if tag_selected filter tag
    then __transform_financial_stmt__ l None !! tag
    else None.
Proof. by rewrite !transform_lookup. Qed.

Lemma tag_selected_requested filter tag :
  tag_selected filter tag = true ↔ tag_requested filter tag.
Proof.
  destruct filter as [tags|]; cbn; [|done]. apply bool_decide_eq_true.
Qed.

(** The normalized statement against the raw line items: it holds a value
    at a tag exactly when the tag is asked for and that value is the one of
    the last line item with the tag. *)
Lemma transform_lookup_Some l filter tag value :
  __transform_financial_stmt__ l filter !! tag = Some value ↔
  tag_requested filter tag ∧
  last_with tag_of StandardizedFinancial.value tag l = Some value.
Proof.
  rewrite transform_lookup, <-tag_selected_requested.
  destruct (tag_selected filter tag).
  - split; [by intros Hl|by intros [_ Hl]].
  - split; [done|by intros [? _]].
Qed.

End Transform.

(** * The data provider *)

Section ProviderFacts.

Context {World : Type}.
Variable api : request → World → api_outcome * World.
Variable date_to_string : Date → string.
Variable get_fiscal_year_period : Z → Z → string * string.

Implicit Types (s : @state World) (ticker tag key : string) (v : pyobj).

Local Abbreviation prices := (get_daily_stock_close_prices api date_to_string).
Local Abbreviation metrics :=
  (__read_financial_metrics__ api get_fiscal_year_period).
Local Abbreviation prices_request ticker sd ed :=
  (get_security_stock_prices ticker (date_to_string sd) (date_to_string ed)
     "daily" 100).
Local Abbreviation metrics_request ticker sy ey tag :=
  (get_company_historical_data ticker tag "yearly"
     (get_fiscal_year_period sy 0).1 (get_fiscal_year_period ey 0).2).

Lemma key_absent_closing_prices ticker sds eds key :
  closing_prices_cache_key ticker sds eds = Some key →
  FinancialCache.key_absent (Some key) = false.
Proof. rewrite closing_prices_cache_key_eq. by intros [= <-]. Qed.

Lemma key_absent_metric ticker sy ey frequency tag key :
  metric_cache_key ticker sy ey frequency tag = Some key →
  FinancialCache.key_absent (Some key) = false.
Proof. rewrite metric_cache_key_eq. by intros [= <-]. Qed.

Lemma key_absent_statement ticker name type i key :
  statement_cache_key ticker name type i = Some key →
  FinancialCache.key_absent (Some key) = false.
Proof. rewrite statement_cache_key_eq. by intros [= <-]. Qed.

Lemma read_Some key (c : FinancialCache.t) v :
  c !! Some key = Some v → FinancialCache.read (Some key) c = v.
Proof. unfold FinancialCache.read. by intros ->. Qed.

Lemma write_present key v (c : FinancialCache.t) :
  FinancialCache.key_absent (Some key) = false →
  FinancialCache.value_absent v = false →
  FinancialCache.write (Some key) v c = <[Some key := v]> c.
Proof. unfold FinancialCache.write. by intros -> ->. Qed.

Lemma write_lookup_ne (k k' : option string) v (c : FinancialCache.t) :
  k ≠ k' → FinancialCache.write k v c !! k' = c !! k'.
Proof.
  intros Hne. unfold FinancialCache.write.
  destruct (_ || _); [done|]. by rewrite lookup_insert_ne.
Qed.

(** The whole of [get_daily_stock_close_prices] as one case analysis on
    the cache entry and on what the service answers. *)
Lemma get_daily_stock_close_prices_run ticker sd ed s key :
  closing_prices_cache_key ticker (date_to_string sd) (date_to_string ed)
  = Some key →
  prices ticker sd ed s =
  let sds := date_to_string sd in
  let eds := date_to_string ed in
  let req := prices_request ticker sd ed in
  let v := FinancialCache.read (Some key) (cache s) in
  if is_None v then
    match api req (world s) with
    | (Returns r, w) =>
        (close_prices_of_response date_to_string ticker sds eds r,
         mkState (FinancialCache.write (Some key) r (cache s)) w
                 (calls s ++ [req]))
    | (Raises e, w) =>
        (if is_ApiException e then
           raise_with
             (py_format
                "API Error while reading price data from Intrinio Security API: ('%s', %s - %s)"
                [FStr ticker; FStr sds; FStr eds])
             (λ m, DataError m (Some e))
         else
           raise_with
             (py_format
                "Unknown Error while reading price data from Intrinio Security API: ('%s', %s - %s)"
                [FStr ticker; FStr sds; FStr eds])
             (λ m, ValidationError m (Some e)),
         mkState (cache s) w (calls s ++ [req]))
    end
  else (close_prices_of_response date_to_string ticker sds eds v, s).
Proof.
  intros Hkey. unfold get_daily_stock_close_prices. rewrite Hkey. cbv zeta.
  unfold bind at 1. unfold fmt at 1. unfold ret at 1.
  unfold bind at 1. unfold cache_read at 1.
  destruct (is_None _) eqn:Hnone.
  - unfold bind at 1. unfold try_except, bind, call, cache_write.
    destruct (api _ _) as [[r|e] w]; cbn [ret cache world calls].
    + unfold close_prices_of_response. destruct r; try done.
      unfold stock_prices_of, ret.
      case_decide; [|done]. by destruct (py_format _ _).
    + destruct (is_ApiException e); by destruct (py_format _ _).
  - unfold bind, ret. unfold close_prices_of_response.
    destruct (FinancialCache.read _ _); try done.
    unfold stock_prices_of, ret.
    case_decide; [|done]. by destruct (py_format _ _).
Qed.

(** The same for [__read_financial_metrics__]. *)
Lemma __read_financial_metrics___run ticker sy ey tag s key :
  metric_cache_key ticker sy ey "yearly" tag = Some key →
  metrics ticker sy ey tag s =
  let req := metrics_request ticker sy ey tag in
  let v := FinancialCache.read (Some key) (cache s) in
  if is_None v then
    match api req (world s) with
    | (Returns r, w) =>
        (metrics_of_response ticker sy ey tag r,
         mkState (FinancialCache.write (Some key) r (cache s)) w
                 (calls s ++ [req]))
    | (Raises e, w) =>
        (if is_ApiException e then
           raise_with
             (py_format
                "Error retrieving ('%s', %d - %d) -> '%s' from Intrinio Company API"
                [FStr ticker; FInt sy; FInt ey; FStr tag])
             (λ m, DataError m (Some e))
         else
           raise_with
             (py_format
                "Error parsing ('%s', %d - %d) -> '%s' from Intrinio Company API"
                [FStr ticker; FInt sy; FInt ey; FStr tag])
             (λ m, ValidationError m (Some e)),
         mkState (cache s) w (calls s ++ [req]))
    end
  else (metrics_of_response ticker sy ey tag v, s).
Proof.
  intros Hkey. unfold __read_financial_metrics__.
  destruct (get_fiscal_year_period sy 0) as [start_date x].
  destruct (get_fiscal_year_period ey 0) as [x' end_date].
  rewrite Hkey. cbv zeta. cbn [fst snd].
  unfold bind at 1. unfold fmt at 1. unfold ret at 1.
  unfold bind at 1. unfold cache_read at 1.
  destruct (is_None _) eqn:Hnone.
  - unfold bind at 1. unfold try_except, bind, call, cache_write.
    destruct (api _ _) as [[r|e] w]; cbn [ret cache world calls].
    + unfold metrics_of_response. destruct r; try done.
      unfold historical_data_of, ret.
      case_decide; [|done]. by destruct (py_format _ _).
    + destruct (is_ApiException e); by destruct (py_format _ _).
  - unfold bind, ret. unfold metrics_of_response.
    destruct (FinancialCache.read _ _); try done.
    unfold historical_data_of, ret.
    case_decide; [|done]. by destruct (py_format _ _).
Qed.

Lemma close_prices_of_response_Ok ticker sds eds v m :
  close_prices_of_response date_to_string ticker sds eds v = Ok m →
  is_None v = false ∧ FinancialCache.value_absent v = false.
Proof. by destruct v. Qed.

(** C1: once a call of the daily close-price fetch has succeeded, the raw
    response sits in the cache under the key built from the arguments
    (written by that call if it was not there before, at the cost of one
    request to the price service), and a second call with the same
    arguments returns the same mapping and leaves the state, and with it
    the log of requests, as it was: the two calls together issue at most
    one request. *)
Theorem daily_close_prices_second_call_cached ticker sd ed s m s1 :
  prices ticker sd ed s = (Ok m, s1) →
  ∃ key raw,
    closing_prices_cache_key ticker (date_to_string sd) (date_to_string ed)
    = Some key ∧
    cache s1 !! Some key = Some raw ∧
    close_prices_of_response date_to_string ticker
      (date_to_string sd) (date_to_string ed) raw = Ok m ∧
    (s1 = s ∨
     ∃ w, api (prices_request ticker sd ed) (world s) = (Returns raw, w) ∧
          s1 = mkState (<[Some key := raw]> (cache s)) w
                       (calls s ++ [prices_request ticker sd ed])) ∧
    (length (calls s1) ≤ length (calls s) + 1)%nat ∧
    prices ticker sd ed s1 = (Ok m, s1).
Proof.
  intros Hrun.
  destruct (closing_prices_cache_key ticker (date_to_string sd)
              (date_to_string ed)) as [key|] eqn:Hkey;
    [|by rewrite closing_prices_cache_key_eq in Hkey].
  rewrite (get_daily_stock_close_prices_run _ _ _ _ key Hkey) in Hrun.
  cbv zeta in Hrun.
  assert (∀ s' raw, cache s' !! Some key = Some raw →
            close_prices_of_response date_to_string ticker
              (date_to_string sd) (date_to_string ed) raw = Ok m →
            prices ticker sd ed s' = (Ok m, s')) as Hhit.
  { intros s' raw Hl Hok.
    rewrite (get_daily_stock_close_prices_run _ _ _ _ key Hkey). cbv zeta.
    rewrite (read_Some _ _ _ Hl).
    destruct (close_prices_of_response_Ok _ _ _ _ _ Hok) as [-> _].
    by rewrite Hok. }
  destruct (is_None _) eqn:Hnone.
  - destruct (api _ _) as [[r|e] w] eqn:Hapi.
    + injection Hrun as Hok <-.
      destruct (close_prices_of_response_Ok _ _ _ _ _ Hok) as [_ Hval].
      rewrite write_present by eauto using key_absent_closing_prices.
      exists key, r. split; [done|]. cbn [cache calls].
      rewrite lookup_insert_eq. split; [done|]. split; [done|].
      split; [right; by exists w|]. split; [rewrite length_app; cbn; lia|].
      apply (Hhit _ r); [cbn; by rewrite lookup_insert_eq|done].
    + destruct (is_ApiException e); destruct (py_format _ _); done.
  - injection Hrun as Hok <-.
    unfold FinancialCache.read in Hok, Hnone.
    destruct (cache s !! Some key) as [v|] eqn:Hl; [|done].
    exists key, v. split; [done|]. split; [done|]. split; [done|].
    split; [by left|]. split; [lia|]. by apply (Hhit _ v).
Qed.

Lemma raise_with_Some {A} (o : option string) (k : string → exn) :
  is_Some o → ∃ msg, raise_with (A:=A) o k = Raise (k msg).
Proof. intros [msg ->]. by exists msg. Qed.

Lemma close_prices_of_empty_response ticker sds eds :
  ∃ msg,
    close_prices_of_response date_to_string ticker sds eds
      (ApiResponseSecurityStockPrices [])
    = Raise (DataError msg None).
Proof.
  unfold close_prices_of_response.
  rewrite decide_True by done.
  apply (raise_with_Some _ (λ msg, DataError msg None)).
  eexists. reflexivity.
Qed.

Lemma metrics_of_empty_response ticker sy ey tag :
  ∃ msg,
    metrics_of_response ticker sy ey tag (ApiResponseCompanyHistoricalData [])
    = Raise (DataError msg None).
Proof.
  unfold metrics_of_response.
  rewrite decide_True by done.
  apply (raise_with_Some _ (λ msg, DataError msg None)).
  eexists. reflexivity.
Qed.

(** C4: a response without records makes both series operations raise
    [DataError] (with no underlying cause), whether the response has
    just been returned by the service on a cache miss or is the entry
    already held in the cache. *)
Theorem empty_series_raises_DataError ticker sd ed sy ey tag s :
  (∀ key,
     closing_prices_cache_key ticker (date_to_string sd) (date_to_string ed)
     = Some key →
     served api s key (prices_request ticker sd ed)
       (ApiResponseSecurityStockPrices []) →
     ∃ msg s1, prices ticker sd ed s = (Raise (DataError msg None), s1)) ∧
  (∀ key,
     metric_cache_key ticker sy ey "yearly" tag = Some key →
     served api s key (metrics_request ticker sy ey tag)
       (ApiResponseCompanyHistoricalData []) →
     ∃ msg s1, metrics ticker sy ey tag s = (Raise (DataError msg None), s1)).
Proof.
  split; intros key Hkey Hsrc.
  - rewrite (get_daily_stock_close_prices_run _ _ _ _ key Hkey). cbv zeta.
    destruct (close_prices_of_empty_response ticker (date_to_string sd)
                (date_to_string ed)) as [msg Hmsg].
    destruct Hsrc as [[Hhit _]|[Hmiss Hapi]].
    + rewrite (read_Some _ _ _ Hhit). cbn [is_None]. rewrite Hmsg. eauto.
    + rewrite Hmiss. destruct (api _ _) as [o w]. cbn in Hapi. subst o.
      rewrite Hmsg. eauto.
  - rewrite (__read_financial_metrics___run _ _ _ _ _ key Hkey). cbv zeta.
    destruct (metrics_of_empty_response ticker sy ey tag) as [msg Hmsg].
    destruct Hsrc as [[Hhit _]|[Hmiss Hapi]].
    + rewrite (read_Some _ _ _ Hhit). cbn [is_None]. rewrite Hmsg. eauto.
    + rewrite Hmiss. destruct (api _ _) as [o w]. cbn in Hapi. subst o.
      rewrite Hmsg. eauto.
Qed.

(** C10: on a cache miss answered by a response without price records,
    the empty response is written to the cache under the key of the
    request before [DataError] is raised; from then on, in any state
    whose cache still holds that entry, the same call raises the same
    [DataError] and leaves the state untouched, so no request is sent
    again. *)
Theorem empty_price_response_is_cached ticker sd ed s key w :
  closing_prices_cache_key ticker (date_to_string sd) (date_to_string ed)
  = Some key →
  is_None (FinancialCache.read (Some key) (cache s)) = true →
  api (prices_request ticker sd ed) (world s)
  = (Returns (ApiResponseSecurityStockPrices []), w) →
  ∃ msg s1,
    prices ticker sd ed s = (Raise (DataError msg None), s1) ∧
    s1 = mkState (<[Some key := ApiResponseSecurityStockPrices []]> (cache s))
                 w (calls s ++ [prices_request ticker sd ed]) ∧
    prices ticker sd ed s1 = (Raise (DataError msg None), s1) ∧
    ∀ s', cache s' !! Some key = Some (ApiResponseSecurityStockPrices []) →
          prices ticker sd ed s' = (Raise (DataError msg None), s').
Proof.
  intros Hkey Hmiss Hapi.
  destruct (close_prices_of_empty_response ticker (date_to_string sd)
              (date_to_string ed)) as [msg Hmsg].
  assert (∀ s', cache s' !! Some key = Some (ApiResponseSecurityStockPrices [])
            → prices ticker sd ed s' = (Raise (DataError msg None), s'))
    as Hlater.
  { intros s' Hl.
    rewrite (get_daily_stock_close_prices_run _ _ _ _ key Hkey). cbv zeta.
    rewrite (read_Some _ _ _ Hl). cbn [is_None]. by rewrite Hmsg. }
  exists msg. eexists. split; [|split; [reflexivity|split]].
  - rewrite (get_daily_stock_close_prices_run _ _ _ _ key Hkey). cbv zeta.
    rewrite Hmiss, Hapi, Hmsg.
    rewrite write_present by eauto using key_absent_closing_prices.
    done.
  - apply Hlater. cbn. by rewrite lookup_insert_eq.
  - done.
Qed.

(** C9: the single-year metric operation runs the series operation with
    [year_from = year_to = year] and looks the year up in its result.
    When the series obtained (from the cache or from the service) has
    records but none dated in that year, the lookup fails and the caller
    gets [KeyError]; no default value is put in its place.  When it has
    one, the caller gets the value of the last such record. *)
Theorem single_year_metric_lookup ticker y tag s :
  __read_financial_metric__ api get_fiscal_year_period ticker y tag s
  = (match (metrics ticker y y tag s).1 with
     | Ok m => match m !! y with
               | Some v => Ok v
               | None => Raise (KeyError y)
               end
     | Raise e => Raise e
     end,
     (metrics ticker y y tag s).2) ∧
  ∀ key data,
    metric_cache_key ticker y y "yearly" tag = Some key →
    data ≠ [] →
    served api s key (metrics_request ticker y y tag)
      (ApiResponseCompanyHistoricalData data) →
    ∃ s1,
      __read_financial_metric__ api get_fiscal_year_period ticker y tag s
      = (match last_with (λ p, year (HistoricalData.date p))
                 HistoricalData.value y data with
         | Some v => Ok v
         | None => Raise (KeyError y)
         end, s1).
Proof.
  assert (__read_financial_metric__ api get_fiscal_year_period ticker y tag s
          = (match (metrics ticker y y tag s).1 with
             | Ok m => match m !! y with
                       | Some v => Ok v
                       | None => Raise (KeyError y)
                       end
             | Raise e => Raise e
             end,
             (metrics ticker y y tag s).2)) as Hdeleg.
  { unfold __read_financial_metric__, bind.
    destruct (metrics ticker y y tag s) as [[m|e] s1]; [|done].
    cbn [fst snd]. by destruct (m !! y). }
  split; [done|]. intros key data Hkey Hdata Hsrc.
  rewrite Hdeleg.
  rewrite (__read_financial_metrics___run _ _ _ _ _ key Hkey). cbv zeta.
  assert (metrics_of_response ticker y y tag
            (ApiResponseCompanyHistoricalData data)
          = Ok (foldl (λ d p, <[year (HistoricalData.date p)
                                := HistoricalData.value p]> d) ∅ data))
    as Hresp.
  { unfold metrics_of_response. rewrite decide_False; [done|].
    by destruct data. }
  assert (∀ d : gmap Z Z,
            d = foldl (λ d p, <[year (HistoricalData.date p)
                                := HistoricalData.value p]> d) ∅ data →
            match d !! y with
            | Some v => Ok v
            | None => Raise (KeyError y)
            end
            = match last_with (λ p, year (HistoricalData.date p))
                      HistoricalData.value y data with
              | Some v => Ok v
              | None => Raise (KeyError y)
              end) as Hlook.
  { intros d ->.
    rewrite (foldl_insert_lookup (λ p, year (HistoricalData.date p))
               HistoricalData.value).
    destruct (last_with _ _ _ _); [done|]. by rewrite lookup_empty. }
  destruct Hsrc as [[Hhit _]|[Hmiss Hapi]].
  - rewrite (read_Some _ _ _ Hhit). cbn [is_None fst snd].
    rewrite Hresp. exists s. by rewrite (Hlook _ eq_refl).
  - rewrite Hmiss. destruct (api _ _) as [o w]. cbn in Hapi. subst o.
    cbn [fst snd]. rewrite Hresp. eexists. by rewrite (Hlook _ eq_refl).
Qed.

(** ** Statements *)

Local Abbreviation statements :=
  (__read_historical_financial_statement__ api).
Local Abbreviation statement_request ticker name i :=
  (get_fundamental_standardized_financials (statement_id ticker name i)).

Lemma statement_loop_body_run ticker name filter i acc s key :
  statement_cache_key ticker name "FY" i = Some key →
  statement_loop_body api ticker name "FY" filter i acc s =
  let req := statement_request ticker name i in
  let v := FinancialCache.read (Some key) (cache s) in
  if is_None v then
    match api req (world s) with
    | (Returns r, w) =>
        (statement_entry filter i acc r,
         mkState (FinancialCache.write (Some key) r (cache s)) w
                 (calls s ++ [req]))
    | (Raises e, w) => (Raise e, mkState (cache s) w (calls s ++ [req]))
    end
  else (statement_entry filter i acc v, s).
Proof.
  intros Hkey. unfold statement_loop_body. rewrite Hkey. cbv zeta.
  unfold bind at 1. unfold fmt at 1. unfold ret at 1.
  unfold bind at 1. unfold cache_read at 1.
  fold (statement_id ticker name i).
  destruct (is_None _) eqn:Hnone.
  - unfold bind, call, cache_write.
    destruct (api _ _) as [[r|e] w]; cbn [ret cache world calls]; [|done].
    by destruct r.
  - unfold bind, ret. by destruct (FinancialCache.read _ _).
Qed.

Lemma statement_cache_key_inj ticker name i j :
  statement_cache_key ticker name "FY" i
  = statement_cache_key ticker name "FY" j → i = j.
Proof.
  rewrite !statement_cache_key_eq. intros [= Heq].
  repeat apply (inj (String.app _)) in Heq.
  by apply (inj pretty) in Heq.
Qed.

Lemma for_each_app {A S} (l1 l2 : list A) (body : A → S → M S) acc s :
  for_each (l1 ++ l2) body acc s
  = match for_each l1 body acc s with
    | (Ok acc', s') => for_each l2 body acc' s'
    | (Raise e, s') => (Raise e, s')
    end.
Proof.
  revert acc s. induction l1 as [|x l1 IH]; intros acc s; [done|].
  cbn [for_each app]. unfold bind.
  destruct (body x acc s) as [[acc'|e] s']; [apply IH|done].
Qed.

(** The loop over years whose statements are all at hand: every year gets
    its entry, and the cache only changes under the keys of those
    years. *)
Lemma statement_loop_success ticker name filter
    (raw : Z → list StandardizedFinancial.t) (l : list Z) :
  NoDup l →
  ∀ acc s,
    (∀ i key, i ∈ l →
       statement_cache_key ticker name "FY" i = Some key →
       always_served api s key (statement_request ticker name i)
         (ApiResponseStandardizedFinancials (raw i))) →
    ∃ s1,
      for_each l (statement_loop_body api ticker name "FY" filter) acc s
      = (Ok (foldl (λ m i, <[i := __transform_financial_stmt__ (raw i) filter]> m)
               acc l), s1) ∧
      ∀ j key, j ∉ l →
        statement_cache_key ticker name "FY" j = Some key →
        cache s1 !! Some key = cache s !! Some key.
Proof.
  induction 1 as [|i l Hni Hnd IH]; intros acc s Hsrc.
  - exists s. done.
  - cbn [for_each foldl]. unfold bind.
    destruct (statement_cache_key ticker name "FY" i) as [key|] eqn:Hkey;
      [|by rewrite statement_cache_key_eq in Hkey].
    rewrite (statement_loop_body_run _ _ _ _ _ _ key Hkey). cbv zeta.
    assert (∀ s' : @state World,
              (∀ j k, j ≠ i → statement_cache_key ticker name "FY" j = Some k →
                      cache s' !! Some k = cache s !! Some k) →
              ∃ s1,
                for_each l (statement_loop_body api ticker name "FY" filter)
                  (<[i := __transform_financial_stmt__ (raw i) filter]> acc) s'
                = (Ok (foldl (λ m i, <[i := __transform_financial_stmt__
                                               (raw i) filter]> m)
                         (<[i := __transform_financial_stmt__ (raw i) filter]>
                            acc) l), s1) ∧
                ∀ j k, j ∉ i :: l →
                  statement_cache_key ticker name "FY" j = Some k →
                  cache s1 !! Some k = cache s !! Some k) as Hrest.
    { intros s' Hframe.
      destruct (IH (<[i := __transform_financial_stmt__ (raw i) filter]> acc) s')
        as (s1 & Hrun & Hcache).
      - intros j k Hj Hk.
        assert (j ≠ i) as Hji by (intros ->; done).
        destruct (Hsrc j k ltac:(by right) Hk) as [[Hhit Hv]|[Hmiss Hapi]].
        + left. by rewrite (Hframe j k Hji Hk).
        + right. split; [|done].
          unfold FinancialCache.read in *. by rewrite (Hframe j k Hji Hk).
      - exists s1. split; [done|]. intros j k Hj Hk.
        apply not_elem_of_cons in Hj as [Hji Hjl].
        rewrite (Hcache j k Hjl Hk). by apply (Hframe j). }
    destruct (Hsrc i key ltac:(by left) Hkey) as [[Hhit Hv]|[Hmiss Hapi]].
    + rewrite (read_Some _ _ _ Hhit). cbn [is_None statement_entry].
      by apply Hrest.
    + rewrite Hmiss. specialize (Hapi (world s)).
      destruct (api _ _) as [o w]. cbn in Hapi. subst o.
      cbn [statement_entry]. apply Hrest. intros j k Hji Hk. cbn [cache].
      apply write_lookup_ne. intros [= ->].
      apply Hji, (statement_cache_key_inj ticker name). congruence.
Qed.

Lemma foldl_insert_years {V} (F : Z → V) (l : list Z) (acc : gmap Z V) j :
  foldl (λ m i, <[i := F i]> m) acc l !! j
  = if decide (j ∈ l) then Some (F j) else acc !! j.
Proof.
  revert acc. induction l as [|i l IH]; intros acc; [done|].
  cbn [foldl]. rewrite IH.
  destruct (decide (j ∈ l)) as [Hl|Hl].
  - rewrite decide_True; [done|by right].
  - destruct (decide (j = i)) as [->|Hne].
    + rewrite decide_True by left. by rewrite lookup_insert_eq.
    + rewrite decide_False by (by intros [?|?]%elem_of_cons).
      by rewrite lookup_insert_ne.
Qed.

(** The loop leaves every cache entry alone except those under the keys
    of the years it runs over, whatever its outcome. *)
Lemma statement_loop_frame ticker name filter (l : list Z) :
  ∀ acc s r s1,
    for_each l (statement_loop_body api ticker name "FY" filter) acc s
    = (r, s1) →
    ∀ k : option string,
      (∀ i key, i ∈ l →
         statement_cache_key ticker name "FY" i = Some key → k ≠ Some key) →
      cache s1 !! k = cache s !! k.
Proof.
  induction l as [|i l IH]; intros acc s r s1 Hrun k Hk.
  - by injection Hrun as _ <-.
  - cbn [for_each] in Hrun. unfold bind in Hrun.
    destruct (statement_cache_key ticker name "FY" i) as [key|] eqn:Hkey;
      [|by rewrite statement_cache_key_eq in Hkey].
    rewrite (statement_loop_body_run _ _ _ _ _ _ key Hkey) in Hrun.
    cbv zeta in Hrun.
    assert (k ≠ Some key) as Hne by (apply (Hk i); [by left|done]).
    assert (∀ j key', j ∈ l →
              statement_cache_key ticker name "FY" j = Some key' →
              k ≠ Some key') as Hk'.
    { intros j key' Hj. apply Hk. by right. }
    destruct (is_None _).
    + destruct (api _ _) as [[v|e] w].
      * destruct (statement_entry filter i acc v) as [acc'|e].
        -- rewrite (IH _ _ _ _ Hrun k Hk'). cbn [cache].
           by apply write_lookup_ne.
        -- injection Hrun as _ <-. cbn [cache]. by apply write_lookup_ne.
      * by injection Hrun as _ <-.
    + destruct (statement_entry filter i acc _) as [acc'|e].
      * by rewrite (IH _ _ _ _ Hrun k Hk').
      * by injection Hrun as _ <-.
Qed.

Lemma statements_unfold ticker name yf yt filter s :
  statements ticker name yf yt filter s
  = match for_each (seqZ yf (yt + 1 - yf))
            (statement_loop_body api (upper ticker) name "FY" filter) ∅ s with
    | (Ok m, s1) => (Ok m, s1)
    | (Raise e, s1) =>
        (if is_ApiException e then
           raise_with
             (py_format
                "Error retrieving ('%s', %d - %d) -> '%s' from Intrinio Fundamentals API"
                [FStr (upper ticker); FInt yf; FInt yt; FStr name])
             (λ m, DataError m (Some e))
         else Raise e, s1)
    end.
Proof.
  unfold __read_historical_financial_statement__, try_except. cbv zeta.
  destruct (for_each _ _ _ _) as [[m|e] s1]; [done|].
  destruct (is_ApiException e); [|done].
  unfold bind, fmt. by destruct (py_format _ _).
Qed.

(** C3: when the statement of every year of the range is at hand (in the
    cache, or returned by the fundamentals service), the retrieval
    returns a mapping with an entry for each year of the inclusive range
    and for no other year.  The entry of a year holds a value at a tag
    exactly when the tag is asked for (it is named by the filter list, or
    there is no filter) and the raw statement of that year has a line item
    with that tag, the value being that of the last such line item; so
    every pair of the entry is a pair of the raw statement, every line
    item at a tag asked for has its tag in the entry, with its own value
    when no tag occurs twice, and what the entry holds at a tag asked for
    is what the unfiltered statement holds there. *)
Theorem historical_statement_filtered ticker name yf yt filter
    (raw : Z → list StandardizedFinancial.t) s :
  (∀ i key, (yf ≤ i ≤ yt)%Z →
     statement_cache_key (upper ticker) name "FY" i = Some key →
     always_served api s key (statement_request (upper ticker) name i)
       (ApiResponseStandardizedFinancials (raw i))) →
  ∃ m s1,
    statements ticker name yf yt filter s = (Ok m, s1) ∧
    ∀ i,
      ((yf ≤ i ≤ yt)%Z →
       ∃ r, m !! i = Some r ∧
         r = __transform_financial_stmt__ (raw i) filter ∧
         (∀ tag, r !! tag
                 = if tag_selected filter tag
                   then __transform_financial_stmt__ (raw i) None !! tag
                   else None) ∧
         (∀ tag value,
            r !! tag = Some value ↔
            tag_requested filter tag ∧
            last_with (λ f, DataTag.tag (StandardizedFinancial.data_tag f))
              StandardizedFinancial.value tag (raw i) = Some value) ∧
         (∀ tag value,
            r !! tag = Some value →
            ∃ f, f ∈ raw i ∧
                 DataTag.tag (StandardizedFinancial.data_tag f) = tag ∧
                 StandardizedFinancial.value f = value) ∧
         (∀ f, f ∈ raw i →
            tag_requested filter
              (DataTag.tag (StandardizedFinancial.data_tag f)) →
            ∃ value,
              r !! DataTag.tag (StandardizedFinancial.data_tag f)
              = Some value ∧
              (NoDup ((λ f, DataTag.tag (StandardizedFinancial.data_tag f))
                        <$> raw i) →
               value = StandardizedFinancial.value f))) ∧
      (¬ (yf ≤ i ≤ yt)%Z → m !! i = None).
Proof.
  intros Hsrc.
  destruct (statement_loop_success (upper ticker) name filter raw
              (seqZ yf (yt + 1 - yf)) (NoDup_seqZ _ _) ∅ s) as (s1 & Hrun & _).
  { intros i key Hi. apply Hsrc. apply elem_of_seqZ in Hi. lia. }
  rewrite statements_unfold, Hrun.
  eexists _, s1. split; [done|]. intros i.
  rewrite (foldl_insert_years
             (λ i, __transform_financial_stmt__ (raw i) filter)).
  split.
  - intros Hi. rewrite decide_True by (apply elem_of_seqZ; lia).
    eexists. split; [done|]. split; [done|].
    split; [intros tag; apply transform_filtered|].
    split; [intros tag value; apply transform_lookup_Some|]. split.
    + intros tag value [_ Hlast]%transform_lookup_Some.
      by apply last_with_Some_elem in Hlast.
    + intros f Hf Hreq.
      destruct (last_with_elem_is_Some
                  (λ f, DataTag.tag (StandardizedFinancial.data_tag f))
                  StandardizedFinancial.value (raw i) f Hf) as [value Hlast].
      exists value. split; [by apply transform_lookup_Some|].
      intros Hnd.
      rewrite (last_with_NoDup
                 (λ f, DataTag.tag (StandardizedFinancial.data_tag f))
                 StandardizedFinancial.value (raw i) f Hnd Hf) in Hlast.
      congruence.
  - intros Hi. rewrite decide_False by (rewrite elem_of_seqZ; lia).
    apply lookup_empty.
Qed.

(** C6: when the fundamentals service answers the request of some year
    [k] of the range with an [ApiException], the statements of the years
    before [k] being at hand, the retrieval as a whole raises a
    [DataError] whose cause is that exception.  The outcome is the
    exception alone: the entries already built for the years before [k]
    are not part of it. *)
Theorem statement_range_aborts_on_first_api_error ticker name yf yt filter
    (raw : Z → list StandardizedFinancial.t) k status reason s :
  (yf ≤ k ≤ yt)%Z →
  (∀ i key, (yf ≤ i < k)%Z →
     statement_cache_key (upper ticker) name "FY" i = Some key →
     always_served api s key (statement_request (upper ticker) name i)
       (ApiResponseStandardizedFinancials (raw i))) →
  (∀ key,
     statement_cache_key (upper ticker) name "FY" k = Some key →
     is_None (FinancialCache.read (Some key) (cache s)) = true ∧
     ∀ w, (api (statement_request (upper ticker) name k) w).1
          = Raises (ApiException status reason)) →
  ∃ msg s1,
    statements ticker name yf yt filter s
    = (Raise (DataError msg (Some (ApiException status reason))), s1).
Proof.
  intros Hk Hsrc Hfail.
  assert (seqZ yf (yt + 1 - yf)
          = seqZ yf (k - yf) ++ k :: seqZ (Z.succ k) (yt - k)) as Hyears.
  { replace (yt + 1 - yf)%Z with ((k - yf) + (yt + 1 - k))%Z by lia.
    rewrite seqZ_app by lia. f_equal.
    replace (yf + (k - yf))%Z with k by lia.
    rewrite seqZ_cons by lia. f_equal. f_equal. lia. }
  destruct (statement_loop_success (upper ticker) name filter raw
              (seqZ yf (k - yf)) (NoDup_seqZ _ _) ∅ s)
    as (s' & Hrun & Hcache).
  { intros i key Hi. apply Hsrc. apply elem_of_seqZ in Hi. lia. }
  rewrite statements_unfold, Hyears, for_each_app, Hrun.
  cbn [for_each]. unfold bind at 1.
  destruct (statement_cache_key (upper ticker) name "FY" k) as [key|] eqn:Hkey;
    [|by rewrite statement_cache_key_eq in Hkey].
  rewrite (statement_loop_body_run _ _ _ _ _ _ key Hkey). cbv zeta.
  destruct (Hfail key eq_refl) as [Hmiss Hapi].
  unfold FinancialCache.read in *.
  rewrite (Hcache k key) by (rewrite ?elem_of_seqZ; done || lia).
  rewrite Hmiss. specialize (Hapi (world s')).
  destruct (api _ _) as [o w]. cbn in Hapi. subst o. cbn [is_ApiException].
  destruct (raise_with_Some (A := gmap Z (gmap string Z))
              (py_format
                 "Error retrieving ('%s', %d - %d) -> '%s' from Intrinio Fundamentals API"
                 [FStr (upper ticker); FInt yf; FInt yt; FStr name])
              (λ m, DataError m (Some (ApiException status reason))))
    as [msg Hmsg]; [eexists; reflexivity|].
  rewrite Hmsg. eauto.
Qed.

(** X20: each operation writes to the cache under the keys it builds and
    nowhere else: the entry under any other key is after the call what it
    was before, whatever the outcome of the call. *)
Lemma operations_write_under_their_keys ticker sd ed sy ey tag name yf yt
    filter s (k : option string) :
  (k ≠ closing_prices_cache_key ticker (date_to_string sd) (date_to_string ed) →
   cache (prices ticker sd ed s).2 !! k = cache s !! k) ∧
  (k ≠ metric_cache_key ticker sy ey "yearly" tag →
   cache (metrics ticker sy ey tag s).2 !! k = cache s !! k) ∧
  ((∀ i, (yf ≤ i ≤ yt)%Z → k ≠ statement_cache_key (upper ticker) name "FY" i) →
   cache (statements ticker name yf yt filter s).2 !! k = cache s !! k).
Proof.
  split; [|split].
  - rewrite closing_prices_cache_key_eq. intros Hk.
    rewrite (get_daily_stock_close_prices_run _ _ _ _ _
               (closing_prices_cache_key_eq _ _ _)).
    cbv zeta. destruct (is_None _); [|done].
    destruct (api _ _) as [[v|e] w]; [|done]. cbn [snd cache].
    by apply write_lookup_ne.
  - rewrite metric_cache_key_eq. intros Hk.
    rewrite (__read_financial_metrics___run _ _ _ _ _ _
               (metric_cache_key_eq _ _ _ _ _)).
    cbv zeta. destruct (is_None _); [|done].
    destruct (api _ _) as [[v|e] w]; [|done]. cbn [snd cache].
    by apply write_lookup_ne.
  - intros Hk. rewrite statements_unfold.
    destruct (for_each _ _ _ _) as [r s1] eqn:Hrun.
    assert (cache s1 !! k = cache s !! k) as Hframe.
    { apply (statement_loop_frame _ _ _ _ _ _ _ _ Hrun).
      intros i key Hi Hkey ->. apply elem_of_seqZ in Hi.
      apply (Hk i); [lia|done]. }
    by destruct r.
Qed.

End ProviderFacts.

(** * The operations on the test double *)

Section Scenarios.

Lemma upper_ascii_idemp (c : ascii) :
  upper_ascii (upper_ascii c) = upper_ascii c.
Proof. destruct c as [[] [] [] [] [] [] [] []]; reflexivity. Qed.

Lemma upper_idemp (t : string) : upper (upper t) = upper t.
Proof.
  induction t as [|c t IH]; [done|]. cbn. by rewrite upper_ascii_idemp, IH.
Qed.

(** The three public statement operations are the helper at their
    statement name: upper-casing the ticker twice is upper-casing it once. *)
Lemma public_statement_operations {World : Type}
    (api : request → World → api_outcome * World) (t : string) :
  get_historical_income_stmt api t
  = __read_historical_financial_statement__ api t "income_statement" ∧
  get_historical_balance_sheet api t
  = __read_historical_financial_statement__ api t "balance_sheet_statement" ∧
  get_historical_cashflow_stmt api t
  = __read_historical_financial_statement__ api t "cash_flow_statement".
Proof.
  unfold get_historical_income_stmt, get_historical_balance_sheet,
    get_historical_cashflow_stmt, __read_historical_financial_statement__.
  by rewrite upper_idemp.
Qed.

(** The statement operations upper-case the ticker themselves: tickers
    that differ in case only give one and the same computation. *)
Lemma statements_ignore_ticker_case {World : Type}
    (api : request → World → api_outcome * World) (t1 t2 : string) :
  upper t1 = upper t2 →
  get_historical_income_stmt api t1 = get_historical_income_stmt api t2 ∧
  get_historical_balance_sheet api t1 = get_historical_balance_sheet api t2 ∧
  get_historical_cashflow_stmt api t1 = get_historical_cashflow_stmt api t2.
Proof.
  intros Heq.
  unfold get_historical_income_stmt, get_historical_balance_sheet,
    get_historical_cashflow_stmt.
  by rewrite Heq.
Qed.

(** The price and metric operations do not: the ticker goes into the key
    as it is given, so a ticker and its upper-case form share a key only
    when they are equal. *)
Lemma series_keys_keep_ticker_case (t s e tag : string) (sy ey : Z) :
  t ≠ upper t →
  closing_prices_cache_key t s e ≠ closing_prices_cache_key (upper t) s e ∧
  metric_cache_key t sy ey "yearly" tag
  ≠ metric_cache_key (upper t) sy ey "yearly" tag.
Proof.
  intros Hne. split.
  - rewrite !closing_prices_cache_key_eq. intros Heq.
    apply some_key_inj in Heq.
    by apply (string_app_inj_r t (upper t)) in Heq.
  - rewrite !metric_cache_key_eq. intros Heq.
    apply some_key_inj in Heq.
    by apply (string_app_inj_r t (upper t)) in Heq.
Qed.

(** C8 at its failing input: after the close prices of AAPL have been
    fetched and cached, the same request with the ticker written aapl
    misses the cache and sends a second request, carrying the lower-case
    ticker, to the price service; both spellings end up with an entry of
    their own. *)
Theorem close_prices_ticker_case_not_normalized :
  let r1 := Fake.prices "AAPL" Fake.start in
  let r2 := Fake.prices "aapl" r1.2 in
  calls r1.2
  = [get_security_stock_prices "AAPL" "2019-10-01" "2019-10-05" "daily" 100] ∧
  calls r2.2
  = [get_security_stock_prices "AAPL" "2019-10-01" "2019-10-05" "daily" 100;
     get_security_stock_prices "aapl" "2019-10-01" "2019-10-05" "daily" 100] ∧
  is_Some (cache r2.2
             !! Some "intrinio-AAPL-2019-10-01-2019-10-05-closing-prices") ∧
  is_Some (cache r2.2
             !! Some "intrinio-aapl-2019-10-01-2019-10-05-closing-prices").
Proof.
  cbv zeta. split; [vm_compute; reflexivity|]. split; [vm_compute; reflexivity|].
  split; eexists; vm_compute; reflexivity.
Qed.

(** The end-to-end scenario of the statement retrieval. *)
Example aapl_total_revenue_2018_2019 :
  (__read_historical_financial_statement__ Fake.api "AAPL" "income_statement"
     2018 2019 (Some ["totalrevenue"]) Fake.start).1
  = Ok {[ 2018%Z := {[ "totalrevenue" := 1000%Z ]};
          2019%Z := {[ "totalrevenue" := 1100%Z ]} ]}.
Proof. vm_compute. reflexivity. Qed.

Lemma daily_close_prices_second_call_cached_witness :
  ∃ m s1,
    Fake.prices "AAPL" Fake.start = (Ok m, s1) ∧
    Fake.prices "AAPL" s1 = (Ok m, s1) ∧
    (length (calls s1) ≤ 1)%nat.
Proof.
  destruct (Fake.prices "AAPL" Fake.start) as [[m|e] s1] eqn:Hrun.
  - exists m, s1.
    destruct (daily_close_prices_second_call_cached Fake.api
                Fake.date_to_string "AAPL" (mkDate 2019 10 1)
                (mkDate 2019 10 5) Fake.start m s1 Hrun)
      as (key & raw & _ & _ & _ & _ & Hlen & Hsecond).
    split; [reflexivity|]. split; [exact Hsecond|exact Hlen].
  - apply (f_equal (λ r, match r.1 with Ok _ => true | Raise _ => false end))
      in Hrun.
    vm_compute in Hrun. discriminate Hrun.
Defined.

Lemma fake_start_miss (key : string) :
  is_None (FinancialCache.read (Some key) (cache Fake.start)) = true.
Proof. unfold FinancialCache.read. cbn. by rewrite lookup_empty. Qed.

Lemma historical_statement_filtered_witness :
  ∃ m s1,
    __read_historical_financial_statement__ Fake.api "AAPL"
      "income_statement" 2018 2019 (Some ["totalrevenue"]) Fake.start
    = (Ok m, s1) ∧
    m !! 2018%Z = Some {[ "totalrevenue" := 1000%Z ]} ∧
    m !! 2019%Z = Some {[ "totalrevenue" := 1100%Z ]} ∧
    m !! 2020%Z = None ∧
    ∃ r, m !! 2018%Z = Some r ∧
         r !! "totalrevenue" = Some 1000%Z ∧ r !! "other" = None.
Proof.
  destruct (historical_statement_filtered Fake.api "AAPL" "income_statement"
              2018 2019 (Some ["totalrevenue"]) Fake.income_statement
              Fake.start) as (m & s1 & Hrun & Hm).
  { intros i key Hi Hkey. right. split; [apply fake_start_miss|].
    intros w. assert (i = 2018 ∨ i = 2019)%Z as [-> | ->] by lia;
      reflexivity. }
  exists m, s1. split; [exact Hrun|].
  destruct (Hm 2018%Z) as [H18 _], (Hm 2019%Z) as [H19 _],
    (Hm 2020%Z) as [_ H20].
  destruct (H18 ltac:(lia)) as (r18 & E18 & Er18 & _ & Hiff & _ & Hitems).
  destruct (H19 ltac:(lia)) as (r19 & -> & -> & _).
  rewrite H20 by lia. rewrite E18.
  split; [rewrite Er18; vm_compute; reflexivity|].
  split; [vm_compute; reflexivity|]. split; [done|].
  exists r18. split; [done|]. split.
  - destruct (Hitems (Fake.financial "totalrevenue" 1000))
      as (value & Hvalue & Hsame).
    + apply list_elem_of_here.
    + apply list_elem_of_here.
    + cbn in Hvalue. rewrite Hvalue. f_equal. apply Hsame. vm_compute.
      apply NoDup_cons. split; [|apply NoDup_singleton].
      intros Hin%list_elem_of_singleton. discriminate Hin.
  - destruct (r18 !! "other") as [value|] eqn:Hother; [|done].
    apply Hiff in Hother as [Hreq _].
    apply list_elem_of_singleton in Hreq. discriminate Hreq.
Defined.

Lemma empty_series_raises_DataError_witness :
  (∃ msg s1, Fake.prices "EMPTY" Fake.start
             = (Raise (DataError msg None), s1)) ∧
  (∃ msg s1,
     __read_financial_metrics__ Fake.api Fake.get_fiscal_year_period
       "EMPTY" 2018 2019 "totalrevenue" Fake.start
     = (Raise (DataError msg None), s1)).
Proof.
  destruct (empty_series_raises_DataError Fake.api Fake.date_to_string
              Fake.get_fiscal_year_period "EMPTY" (mkDate 2019 10 1)
              (mkDate 2019 10 5) 2018 2019 "totalrevenue" Fake.start)
    as [Hprices Hmetrics].
  split.
  - eapply Hprices; [reflexivity|]. right.
    split; [apply fake_start_miss|reflexivity].
  - eapply Hmetrics; [reflexivity|]. right.
    split; [apply fake_start_miss|reflexivity].
Defined.

Lemma statement_range_aborts_on_first_api_error_witness :
  ∃ msg s1,
    __read_historical_financial_statement__ Fake.api "AAPL"
      "income_statement" 2018 2020 None Fake.start
    = (Raise (DataError msg (Some (ApiException 404 "Not Found"))), s1).
Proof.
  apply (statement_range_aborts_on_first_api_error Fake.api "AAPL"
           "income_statement" 2018 2020 None Fake.income_statement 2020).
  - lia.
  - intros i key Hi Hkey. right. split; [apply fake_start_miss|].
    intros w. assert (i = 2018 ∨ i = 2019)%Z as [-> | ->] by lia;
      reflexivity.
  - intros key Hkey. split; [apply fake_start_miss|]. intros w. reflexivity.
Defined.

Lemma single_year_metric_lookup_witness :
  (∃ s1, __read_financial_metric__ Fake.api Fake.get_fiscal_year_period
           "AAPL" 2019 "totalrevenue" Fake.start
         = (Raise (KeyError 2019), s1)) ∧
  (∃ s1, __read_financial_metric__ Fake.api Fake.get_fiscal_year_period
           "AAPL" 2018 "totalrevenue" Fake.start
         = (Ok 265%Z, s1)).
Proof.
  split.
  - destruct (single_year_metric_lookup Fake.api Fake.get_fiscal_year_period
                "AAPL" 2019 "totalrevenue" Fake.start) as [_ Hlookup].
    eapply (Hlookup _ [HistoricalData.mk (mkDate 2017 12 31) 229;
                       HistoricalData.mk (mkDate 2018 12 31) 265]);
      [reflexivity|done|].
    right. split; [apply fake_start_miss|reflexivity].
  - destruct (single_year_metric_lookup Fake.api Fake.get_fiscal_year_period
                "AAPL" 2018 "totalrevenue" Fake.start) as [_ Hlookup].
    eapply (Hlookup _ [HistoricalData.mk (mkDate 2017 12 31) 229;
                       HistoricalData.mk (mkDate 2018 12 31) 265]);
      [reflexivity|done|].
    right. split; [apply fake_start_miss|reflexivity].
Defined.

Lemma empty_price_response_is_cached_witness :
  ∃ msg s1,
    Fake.prices "EMPTY" Fake.start = (Raise (DataError msg None), s1) ∧
    calls s1
    = [get_security_stock_prices "EMPTY" "2019-10-01" "2019-10-05" "daily" 100]
    ∧ Fake.prices "EMPTY" s1 = (Raise (DataError msg None), s1).
Proof.
  destruct (empty_price_response_is_cached Fake.api Fake.date_to_string
              "EMPTY" (mkDate 2019 10 1) (mkDate 2019 10 5) Fake.start
              "intrinio-EMPTY-2019-10-01-2019-10-05-closing-prices" tt)
    as (msg & s1 & Hfirst & -> & Hsecond & _).
  - reflexivity.
  - apply fake_start_miss.
  - reflexivity.
  - exists msg. eexists. split; [exact Hfirst|]. split; [reflexivity|].
    exact Hsecond.
Defined.

End Scenarios.

(** * More on the cache store *)

Section CacheStoreMore.

Import FinancialCache.

Implicit Types (key : option string) (value : pyobj) (self : FinancialCache.t).

(** X1: a write with a non-empty key and a non-empty value is read back
    under that key, and the read of any other key is what it was. *)
Theorem write_then_read key k' value self :
  key_absent key = false → value_absent value = false →
  read key (write key value self) = value ∧
  (k' ≠ key → read k' (write key value self) = read k' self).
Proof.
  intros Hk Hv. unfold read, write. rewrite Hk, Hv. cbn. split.
  - by rewrite lookup_insert_eq.
  - intros Hne. by rewrite lookup_insert_ne.
Qed.

Lemma write_then_read_witness :
  read (Some "k") (write (Some "k") (PyStr "v") ∅) = PyStr "v" ∧
  read (Some "j") (write (Some "k") (PyStr "v") ∅) = PyNone.
Proof.
  destruct (write_then_read (Some "k") (Some "j") (PyStr "v") ∅ eq_refl eq_refl)
    as [Hsame Hother].
  split; [exact Hsame|]. rewrite Hother by discriminate. reflexivity.
Defined.

(** X2: a store filled through [write] holds no entry under an empty or
    absent key and no empty or absent value; on such a store [read]
    returns [None] exactly for the keys that hold nothing, so a [None]
    always means a miss. *)
Theorem populated_read_None_iff self :
  populated self →
  (∀ key value, self !! key = Some value →
     key ≠ None ∧ key ≠ Some "" ∧ value ≠ PyNone ∧ value ≠ PyStr "") ∧
  (∀ key, read key self = PyNone ↔ self !! key = None).
Proof.
  intros Hpop. split.
  - intros key value Hl.
    destruct (populated_sound self Hpop key value Hl) as [Hk Hv].
    repeat split; intros ->; discriminate.
  - intros key. unfold read. destruct (self !! key) as [v|] eqn:Hl; [|done].
    destruct (populated_sound self Hpop key v Hl) as [_ Hv].
    split; [|done]. intros ->. discriminate.
Qed.

Lemma populated_read_None_iff_witness :
  read (Some "j") (write (Some "k") (PyStr "v") ∅) = PyNone ↔
  write (Some "k") (PyStr "v") ∅ !! Some "j" = None.
Proof.
  apply (populated_read_None_iff (write (Some "k") (PyStr "v") ∅)).
  apply populated_write, populated_empty.
Defined.

(** X3: writes under one key do not pile up: a second write with a
    non-empty value replaces the first, a second write with an empty or
    absent value leaves the first in place, and writing the same pair
    twice is writing it once. *)
Theorem write_twice key v1 v2 self :
  write key v1 (write key v1 self) = write key v1 self ∧
  (value_absent v2 = false →
   write key v2 (write key v1 self) = write key v2 self) ∧
  (value_absent v2 = true →
   write key v2 (write key v1 self) = write key v1 self).
Proof.
  unfold write. split; [|split].
  - destruct (key_absent key), (value_absent v1); cbn; try done.
    by rewrite insert_insert_eq.
  - intros ->. destruct (key_absent key), (value_absent v1); cbn; try done.
    by rewrite insert_insert_eq.
  - intros ->. by rewrite orb_true_r.
Qed.

Lemma write_twice_witness :
  write (Some "k") (PyStr "b") (write (Some "k") (PyStr "a") ∅)
  = write (Some "k") (PyStr "b") ∅ ∧
  write (Some "k") (PyStr "") (write (Some "k") (PyStr "a") ∅)
  = write (Some "k") (PyStr "a") ∅.
Proof.
  destruct (write_twice (Some "k") (PyStr "a") (PyStr "b") ∅) as (_ & Hb & _).
  destruct (write_twice (Some "k") (PyStr "a") (PyStr "") ∅) as (_ & _ & He).
  split; [exact (Hb eq_refl)|exact (He eq_refl)].
Defined.

End CacheStoreMore.

(** * More on dicts built in a loop *)

Section DictsMore.

Context {A K V : Type} `{Countable K}.
Implicit Types (l : list A) (d : gmap K V) (k : K).

Lemma foldl_insert_snoc (key : A → K) (val : A → V) l x d :
  foldl (λ d x, <[key x := val x]> d) d (l ++ [x])
  = <[key x := val x]> (foldl (λ d x, <[key x := val x]> d) d l).
Proof. by rewrite foldl_app. Qed.

Lemma foldl_insert_nonempty (key : A → K) (val : A → V) l d :
  l ≠ [] → foldl (λ d x, <[key x := val x]> d) d l ≠ ∅.
Proof.
  destruct l as [|x l _] using rev_ind; [done|]. intros _.
  rewrite foldl_insert_snoc. apply insert_non_empty.
Qed.

End DictsMore.

(** * More on the series operations *)

Section SeriesMore.

Context {World : Type}.
Variable api : request → World → api_outcome * World.
Variable date_to_string : Date → string.
Variable get_fiscal_year_period : Z → Z → string * string.

Implicit Types (s : @state World) (ticker tag key : string) (v : pyobj).

Local Abbreviation prices := (get_daily_stock_close_prices api date_to_string).
Local Abbreviation metrics :=
  (__read_financial_metrics__ api get_fiscal_year_period).
Local Abbreviation prices_request ticker sd ed :=
  (get_security_stock_prices ticker (date_to_string sd) (date_to_string ed)
     "daily" 100).
Local Abbreviation metrics_request ticker sy ey tag :=
  (get_company_historical_data ticker tag "yearly"
     (get_fiscal_year_period sy 0).1 (get_fiscal_year_period ey 0).2).

(** X4: when the price service raises on a cache miss, the fetch turns an
    [ApiException] into a [DataError] and any other exception into a
    [ValidationError], each carrying the original exception as its cause;
    nothing is written to the cache and exactly one request is logged. *)
Theorem close_prices_service_error ticker sd ed s key e w :
  closing_prices_cache_key ticker (date_to_string sd) (date_to_string ed)
  = Some key →
  is_None (FinancialCache.read (Some key) (cache s)) = true →
  api (prices_request ticker sd ed) (world s) = (Raises e, w) →
  ∃ msg,
    prices ticker sd ed s
    = (Raise (if is_ApiException e then DataError msg (Some e)
              else ValidationError msg (Some e)),
       mkState (cache s) w (calls s ++ [prices_request ticker sd ed])).
Proof.
  intros Hkey Hmiss Hapi.
  rewrite (get_daily_stock_close_prices_run _ _ _ _ _ _ key Hkey). cbv zeta.
  rewrite Hmiss, Hapi.
  destruct (is_ApiException e).
  - destruct (raise_with_Some (A := gmap string Z)
                (py_format
                   "API Error while reading price data from Intrinio Security API: ('%s', %s - %s)"
                   [FStr ticker; FStr (date_to_string sd);
                    FStr (date_to_string ed)])
                (λ m, DataError m (Some e))) as [msg ->];
      [eexists; reflexivity|].
    by exists msg.
  - destruct (raise_with_Some (A := gmap string Z)
                (py_format
                   "Unknown Error while reading price data from Intrinio Security API: ('%s', %s - %s)"
                   [FStr ticker; FStr (date_to_string sd);
                    FStr (date_to_string ed)])
                (λ m, ValidationError m (Some e))) as [msg ->];
      [eexists; reflexivity|].
    by exists msg.
Qed.

(** X5: when the company service raises on a cache miss, the metric
    series turns an [ApiException] into a [DataError] and any other
    exception into a [ValidationError], each carrying the original
    exception as its cause; nothing is written to the cache and exactly
    one request is logged. *)
Theorem metrics_service_error ticker sy ey tag s key e w :
  metric_cache_key ticker sy ey "yearly" tag = Some key →
  is_None (FinancialCache.read (Some key) (cache s)) = true →
  api (metrics_request ticker sy ey tag) (world s) = (Raises e, w) →
  ∃ msg,
    metrics ticker sy ey tag s
    = (Raise (if is_ApiException e then DataError msg (Some e)
              else ValidationError msg (Some e)),
       mkState (cache s) w (calls s ++ [metrics_request ticker sy ey tag])).
Proof.
  intros Hkey Hmiss Hapi.
  rewrite (__read_financial_metrics___run _ _ _ _ _ _ _ key Hkey). cbv zeta.
  rewrite Hmiss, Hapi.
  destruct (is_ApiException e).
  - destruct (raise_with_Some (A := gmap Z Z)
                (py_format
                   "Error retrieving ('%s', %d - %d) -> '%s' from Intrinio Company API"
                   [FStr ticker; FInt sy; FInt ey; FStr tag])
                (λ m, DataError m (Some e))) as [msg ->];
      [eexists; reflexivity|].
    by exists msg.
  - destruct (raise_with_Some (A := gmap Z Z)
                (py_format
                   "Error parsing ('%s', %d - %d) -> '%s' from Intrinio Company API"
                   [FStr ticker; FInt sy; FInt ey; FStr tag])
                (λ m, ValidationError m (Some e))) as [msg ->];
      [eexists; reflexivity|].
    by exists msg.
Qed.

(** X6: on a cache hit neither series operation contacts its service or
    touches the state, whatever the entry is; an entry of another class
    than the expected response makes the call raise [AttributeError]. *)
Theorem series_cache_hit ticker sd ed sy ey tag s v :
  is_None v = false →
  (∀ key,
     closing_prices_cache_key ticker (date_to_string sd) (date_to_string ed)
     = Some key →
     cache s !! Some key = Some v →
     ∃ r, prices ticker sd ed s = (r, s) ∧
          ((∀ l, v ≠ ApiResponseSecurityStockPrices l) →
           r = Raise (AttributeError "stock_prices"))) ∧
  (∀ key,
     metric_cache_key ticker sy ey "yearly" tag = Some key →
     cache s !! Some key = Some v →
     ∃ r, metrics ticker sy ey tag s = (r, s) ∧
          ((∀ l, v ≠ ApiResponseCompanyHistoricalData l) →
           r = Raise (AttributeError "historical_data"))).
Proof.
  intros Hv. split; intros key Hkey Hhit.
  - rewrite (get_daily_stock_close_prices_run _ _ _ _ _ _ key Hkey). cbv zeta.
    rewrite (read_Some _ _ _ Hhit), Hv. eexists. split; [done|].
    intros Hclass. destruct v; try done. by destruct (Hclass stock_prices).
  - rewrite (__read_financial_metrics___run _ _ _ _ _ _ _ key Hkey). cbv zeta.
    rewrite (read_Some _ _ _ Hhit), Hv. eexists. split; [done|].
    intros Hclass. destruct v; try done. by destruct (Hclass historical_data).
Qed.

(** X21: a response that is [None] or the empty string is not cached (the
    store skips the write), and the call fails with the [AttributeError]
    of the attribute read that follows, outside the [try]: it is neither a
    [DataError] nor a [ValidationError], and the next call asks the
    service again. *)
Theorem absent_response_not_cached ticker sd ed sy ey tag s v w :
  FinancialCache.value_absent v = true →
  (∀ key,
     closing_prices_cache_key ticker (date_to_string sd) (date_to_string ed)
     = Some key →
     is_None (FinancialCache.read (Some key) (cache s)) = true →
     api (prices_request ticker sd ed) (world s) = (Returns v, w) →
     prices ticker sd ed s
     = (Raise (AttributeError "stock_prices"),
        mkState (cache s) w (calls s ++ [prices_request ticker sd ed]))) ∧
  (∀ key,
     metric_cache_key ticker sy ey "yearly" tag = Some key →
     is_None (FinancialCache.read (Some key) (cache s)) = true →
     api (metrics_request ticker sy ey tag) (world s) = (Returns v, w) →
     metrics ticker sy ey tag s
     = (Raise (AttributeError "historical_data"),
        mkState (cache s) w (calls s ++ [metrics_request ticker sy ey tag]))).
Proof.
  intros Hv.
  assert (∀ key, FinancialCache.write (Some key) v (cache s) = cache s) as Hw.
  { intros key. unfold FinancialCache.write. by rewrite Hv, orb_true_r. }
  split; intros key Hkey Hmiss Hapi.
  - rewrite (get_daily_stock_close_prices_run _ _ _ _ _ _ key Hkey). cbv zeta.
    rewrite Hmiss, Hapi, Hw. by destruct v.
  - rewrite (__read_financial_metrics___run _ _ _ _ _ _ _ key Hkey). cbv zeta.
    rewrite Hmiss, Hapi, Hw. by destruct v.
Qed.

Lemma prices_rerun ticker sd ed s m s1 :
  prices ticker sd ed s = (Ok m, s1) →
  ∃ key l,
    closing_prices_cache_key ticker (date_to_string sd) (date_to_string ed)
    = Some key ∧
    cache s1 !! Some key = Some (ApiResponseSecurityStockPrices l) ∧
    l ≠ [] ∧
    m = foldl (λ d p, <[date_to_string (StockPriceSummary.date p)
                        := StockPriceSummary.close p]> d) ∅ l.
Proof.
  intros Hrun.
  destruct (closing_prices_cache_key ticker (date_to_string sd)
              (date_to_string ed)) as [key|] eqn:Hkey;
    [|by rewrite closing_prices_cache_key_eq in Hkey].
  rewrite (get_daily_stock_close_prices_run _ _ _ _ _ _ key Hkey) in Hrun.
  cbv zeta in Hrun.
  assert (∀ v, close_prices_of_response date_to_string ticker
                 (date_to_string sd) (date_to_string ed) v = Ok m →
               ∃ l, v = ApiResponseSecurityStockPrices l ∧ l ≠ [] ∧
                    m = foldl (λ d p, <[date_to_string (StockPriceSummary.date p)
                                        := StockPriceSummary.close p]> d) ∅ l)
    as Hshape.
  { intros v Hok. destruct v as [| |l| |]; try done. exists l.
    unfold close_prices_of_response in Hok.
    destruct (decide (length l = 0%nat)) as [Hl|Hl].
    - by destruct (py_format _ _).
    - injection Hok as <-. split; [done|]. split; [|done]. by intros ->. }
  exists key. destruct (is_None _) eqn:Hnone.
  - destruct (api _ _) as [[r|e] w].
    + injection Hrun as Hok <-. destruct (Hshape r Hok) as (l & -> & Hl & ->).
      exists l. split; [done|]. split; [|done]. cbn [cache].
      rewrite write_present by eauto using key_absent_closing_prices.
      by rewrite lookup_insert_eq.
    + destruct (is_ApiException e); by destruct (py_format _ _).
  - injection Hrun as Hok <-. destruct (Hshape _ Hok) as (l & Hv & Hl & ->).
    exists l. split; [done|]. split; [|done].
    unfold FinancialCache.read in Hv. by destruct (cache s !! Some key) as [?|]; subst.
Qed.

Lemma metrics_rerun ticker sy ey tag s m s1 :
  metrics ticker sy ey tag s = (Ok m, s1) →
  ∃ key data,
    metric_cache_key ticker sy ey "yearly" tag = Some key ∧
    cache s1 !! Some key = Some (ApiResponseCompanyHistoricalData data) ∧
    data ≠ [] ∧
    m = foldl (λ d p, <[year (HistoricalData.date p)
                        := HistoricalData.value p]> d) ∅ data ∧
    (length (calls s1) ≤ length (calls s) + 1)%nat ∧
    metrics ticker sy ey tag s1 = (Ok m, s1).
Proof.
  intros Hrun.
  destruct (metric_cache_key ticker sy ey "yearly" tag) as [key|] eqn:Hkey;
    [|by rewrite metric_cache_key_eq in Hkey].
  rewrite (__read_financial_metrics___run _ _ _ _ _ _ _ key Hkey) in Hrun.
  cbv zeta in Hrun.
  assert (∀ v, metrics_of_response ticker sy ey tag v = Ok m →
               ∃ data, v = ApiResponseCompanyHistoricalData data ∧ data ≠ [] ∧
                    m = foldl (λ d p, <[year (HistoricalData.date p)
                                        := HistoricalData.value p]> d) ∅ data)
    as Hshape.
  { intros v Hok. destruct v as [| | |data|]; try done. exists data.
    unfold metrics_of_response in Hok.
    destruct (decide (length data = 0%nat)) as [Hl|Hl].
    - by destruct (py_format _ _).
    - injection Hok as <-. split; [done|]. split; [|done]. by intros ->. }
  assert (∀ s' data, cache s' !! Some key
                     = Some (ApiResponseCompanyHistoricalData data) →
            metrics_of_response ticker sy ey tag
              (ApiResponseCompanyHistoricalData data) = Ok m →
            metrics ticker sy ey tag s' = (Ok m, s')) as Hhit.
  { intros s' data Hl Hok.
    rewrite (__read_financial_metrics___run _ _ _ _ _ _ _ key Hkey). cbv zeta.
    rewrite (read_Some _ _ _ Hl). cbn [is_None]. by rewrite Hok. }
  exists key. destruct (is_None _) eqn:Hnone.
  - destruct (api _ _) as [[r|e] w].
    + injection Hrun as Hok <-.
      destruct (Hshape r Hok) as (data & -> & Hl & Hm).
      assert (cache (mkState (FinancialCache.write (Some key)
                       (ApiResponseCompanyHistoricalData data) (cache s)) w
                       (calls s ++ [metrics_request ticker sy ey tag]))
              !! Some key = Some (ApiResponseCompanyHistoricalData data)) as Hc.
      { cbn [cache].
        rewrite write_present by eauto using key_absent_metric.
        by rewrite lookup_insert_eq. }
      exists data. split; [done|]. split; [done|]. split; [done|].
      split; [done|]. split; [cbn; rewrite length_app; cbn; lia|].
      by apply (Hhit _ data).
    + destruct (is_ApiException e); by destruct (py_format _ _).
  - injection Hrun as Hok <-. destruct (Hshape _ Hok) as (data & Hv & Hl & Hm).
    assert (cache s !! Some key = Some (ApiResponseCompanyHistoricalData data))
      as Hc.
    { unfold FinancialCache.read in Hv.
      by destruct (cache s !! Some key) as [?|]; subst. }
    exists data. split; [done|]. split; [done|]. split; [done|].
    split; [done|]. split; [lia|]. rewrite Hv in Hok.
    by apply (Hhit _ data).
Qed.

(** X7: once a call of the metric series has succeeded, the response is in
    the cache under the key of the request, the call has sent at most one
    request, and a second call with the same arguments returns the same
    mapping and leaves the state, and so the log of requests, as it
    was. *)
Theorem metrics_second_call_cached ticker sy ey tag s m s1 :
  metrics ticker sy ey tag s = (Ok m, s1) →
  ∃ key raw,
    metric_cache_key ticker sy ey "yearly" tag = Some key ∧
    cache s1 !! Some key = Some raw ∧
    (length (calls s1) ≤ length (calls s) + 1)%nat ∧
    metrics ticker sy ey tag s1 = (Ok m, s1).
Proof.
  intros Hrun.
  destruct (metrics_rerun _ _ _ _ _ _ _ Hrun)
    as (key & data & Hkey & Hc & _ & _ & Hlen & Hsecond).
  by exists key, (ApiResponseCompanyHistoricalData data).
Qed.

(** X8: a single-year lookup that follows a successful series call over
    that one year is answered from the entry the series call has left in
    the cache: it returns the value the series holds for the year, or
    [KeyError] when the series has none, and sends no request. *)
Theorem single_year_metric_reuses_series_entry ticker y tag s m s1 :
  metrics ticker y y tag s = (Ok m, s1) →
  __read_financial_metric__ api get_fiscal_year_period ticker y tag s1
  = (match m !! y with
     | Some v => Ok v
     | None => Raise (KeyError y)
     end, s1).
Proof.
  intros Hrun.
  destruct (metrics_rerun _ _ _ _ _ _ _ Hrun)
    as (key & data & _ & _ & _ & _ & _ & Hsecond).
  unfold __read_financial_metric__, bind. rewrite Hsecond.
  by destruct (m !! y).
Qed.

(** X9: the mapping a successful metric series call returns is never
    empty; it holds, for each year, the value of the last record of the
    response dated in that year, and nothing for a year without record:
    years the service leaves out are left out, not filled in. *)
Theorem metrics_series_content ticker sy ey tag s m s1 :
  metrics ticker sy ey tag s = (Ok m, s1) →
  m ≠ ∅ ∧
  ∃ key data,
    metric_cache_key ticker sy ey "yearly" tag = Some key ∧
    cache s1 !! Some key = Some (ApiResponseCompanyHistoricalData data) ∧
    (∀ y, m !! y
          = last_with (λ p, year (HistoricalData.date p))
              HistoricalData.value y data) ∧
    (∀ y, is_Some (m !! y) ↔
          ∃ p, p ∈ data ∧ year (HistoricalData.date p) = y).
Proof.
  intros Hrun.
  destruct (metrics_rerun _ _ _ _ _ _ _ Hrun)
    as (key & data & Hkey & Hc & Hdata & -> & _ & _).
  split; [by apply foldl_insert_nonempty|].
  exists key, data. split; [done|]. split; [done|].
  assert (∀ y, foldl (λ (d : gmap Z Z) p, <[year (HistoricalData.date p)
                               := HistoricalData.value p]> d) ∅ data !! y
               = last_with (λ p, year (HistoricalData.date p))
                   HistoricalData.value y data) as Hlook.
  { intros y.
    rewrite (foldl_insert_lookup (λ p, year (HistoricalData.date p))
               HistoricalData.value).
    destruct (last_with _ _ _ _); [done|apply lookup_empty]. }
  split; [done|]. intros y. rewrite Hlook. split.
  - intros [v Hv]. apply last_with_Some_elem in Hv as (p & Hp & Hy & _).
    by exists p.
  - intros (p & Hp & <-).
    apply (last_with_elem_is_Some (λ p, year (HistoricalData.date p))). done.
Qed.

(** X10: the mapping a successful close-price fetch returns is never
    empty; it holds, for each date string, the close of the last price
    record of the response with that date, and nothing for a date without
    record. *)
Theorem close_prices_content ticker sd ed s m s1 :
  prices ticker sd ed s = (Ok m, s1) →
  m ≠ ∅ ∧
  ∃ key price_list,
    closing_prices_cache_key ticker (date_to_string sd) (date_to_string ed)
    = Some key ∧
    cache s1 !! Some key = Some (ApiResponseSecurityStockPrices price_list) ∧
    (∀ d, m !! d
          = last_with (λ p, date_to_string (StockPriceSummary.date p))
              StockPriceSummary.close d price_list) ∧
    (∀ d, is_Some (m !! d) ↔
          ∃ p, p ∈ price_list ∧ date_to_string (StockPriceSummary.date p) = d).
Proof.
  intros Hrun.
  destruct (prices_rerun _ _ _ _ _ _ Hrun) as (key & l & Hkey & Hc & Hl & ->).
  split; [by apply foldl_insert_nonempty|].
  exists key, l. split; [done|]. split; [done|].
  assert (∀ d, foldl (λ (d : gmap string Z) p,
                        <[date_to_string (StockPriceSummary.date p)
                          := StockPriceSummary.close p]> d) ∅ l !! d
               = last_with (λ p, date_to_string (StockPriceSummary.date p))
                   StockPriceSummary.close d l) as Hlook.
  { intros d.
    rewrite (foldl_insert_lookup
               (λ p, date_to_string (StockPriceSummary.date p))
               StockPriceSummary.close).
    destruct (last_with _ _ _ _); [done|apply lookup_empty]. }
  split; [done|]. intros d. rewrite Hlook. split.
  - intros [v Hv]. apply last_with_Some_elem in Hv as (p & Hp & Hy & _).
    by exists p.
  - intros (p & Hp & <-).
    apply (last_with_elem_is_Some
             (λ p, date_to_string (StockPriceSummary.date p))). done.
Qed.

End SeriesMore.

(** * More on the statement retrieval *)

Section StatementsMore.

Context {World : Type}.
Variable api : request → World → api_outcome * World.

Implicit Types (s : @state World) (ticker name key : string) (v : pyobj).
Implicit Types (raw : Z → list StandardizedFinancial.t).
Implicit Types (filter : option (list string)).

Local Abbreviation statements :=
  (__read_historical_financial_statement__ api).
Local Abbreviation statement_request ticker name i :=
  (get_fundamental_standardized_financials (statement_id ticker name i)).
Local Abbreviation entries raw filter :=
  (foldl (λ (m : gmap Z (gmap string Z)) i,
            <[i := __transform_financial_stmt__ (raw i) filter]> m)).

(** A loop over years that are all in the cache returns their entries and
    leaves the state as it is. *)
Lemma statement_loop_all_cached ticker name filter raw (l : list Z) :
  ∀ acc s,
    (∀ i key, i ∈ l →
       statement_cache_key ticker name "FY" i = Some key →
       cache s !! Some key = Some (ApiResponseStandardizedFinancials (raw i))) →
    for_each l (statement_loop_body api ticker name "FY" filter) acc s
    = (Ok (entries raw filter acc l), s).
Proof.
  induction l as [|i l IH]; intros acc s Hc; [done|].
  cbn [for_each foldl]. unfold bind.
  destruct (statement_cache_key ticker name "FY" i) as [key|] eqn:Hkey;
    [|by rewrite statement_cache_key_eq in Hkey].
  rewrite (statement_loop_body_run _ _ _ _ _ _ _ key Hkey). cbv zeta.
  rewrite (read_Some _ _ _ (Hc i key ltac:(by left) Hkey)).
  cbn [is_None statement_entry]. apply IH.
  intros j k Hj. apply Hc. by right.
Qed.

(** A loop over years whose statements are at hand leaves each of them in
    the cache. *)
Lemma statement_loop_caches ticker name filter raw (l : list Z) :
  NoDup l →
  ∀ acc s,
    (∀ i key, i ∈ l →
       statement_cache_key ticker name "FY" i = Some key →
       always_served api s key (statement_request ticker name i)
         (ApiResponseStandardizedFinancials (raw i))) →
    ∃ s1,
      for_each l (statement_loop_body api ticker name "FY" filter) acc s
      = (Ok (entries raw filter acc l), s1) ∧
      ∀ i key, i ∈ l →
        statement_cache_key ticker name "FY" i = Some key →
        cache s1 !! Some key = Some (ApiResponseStandardizedFinancials (raw i)).
Proof.
  intros Hnd acc s Hsrc.
  destruct (statement_loop_success api ticker name filter raw l Hnd acc s Hsrc)
    as (s1 & Hrun & _).
  exists s1. split; [done|].
  revert acc s s1 Hsrc Hrun.
  induction Hnd as [|i l Hni Hnd IH]; intros acc s s1 Hsrc Hrun j key Hj Hkey.
  { by apply elem_of_nil in Hj. }
  cbn [for_each foldl] in Hrun. unfold bind in Hrun.
  destruct (statement_cache_key ticker name "FY" i) as [ki|] eqn:Hki;
    [|by rewrite statement_cache_key_eq in Hki].
  rewrite (statement_loop_body_run _ _ _ _ _ _ _ ki Hki) in Hrun.
  cbv zeta in Hrun.
  assert (∀ s' : @state World,
            cache s' !! Some ki
            = Some (ApiResponseStandardizedFinancials (raw i)) →
            (∀ j k, j ≠ i → statement_cache_key ticker name "FY" j = Some k →
                    cache s' !! Some k = cache s !! Some k) →
            for_each l (statement_loop_body api ticker name "FY" filter)
              (<[i := __transform_financial_stmt__ (raw i) filter]> acc) s'
            = (Ok (entries raw filter acc (i :: l)), s1) →
            cache s1 !! Some key
            = Some (ApiResponseStandardizedFinancials (raw j))) as Hrest.
  { intros s' Hci Hframe Hrun'.
    apply elem_of_cons in Hj as [->|Hj].
    - assert (ki = key) as -> by congruence.
      rewrite (statement_loop_frame _ _ _ _ _ _ _ _ _ Hrun'); [done|].
      intros j kj Hjl Hkj [= ->]. apply Hni.
      by rewrite (statement_cache_key_inj ticker name i j) by congruence.
    - apply (IH (<[i := __transform_financial_stmt__ (raw i) filter]> acc)
               s' s1); [|done|done|done].
      intros j' k' Hj' Hk'.
      assert (j' ≠ i) as Hne by (intros ->; done).
      destruct (Hsrc j' k' ltac:(by right) Hk') as [[Hhit Hv]|[Hmiss Hapi]].
      + left. by rewrite (Hframe j' k' Hne Hk').
      + right. split; [|done].
        unfold FinancialCache.read in *. by rewrite (Hframe j' k' Hne Hk'). }
  destruct (Hsrc i ki ltac:(by left) Hki) as [[Hhit Hv]|[Hmiss Hapi]].
  - rewrite (read_Some _ _ _ Hhit) in Hrun. cbn [is_None statement_entry] in Hrun.
    by apply (Hrest s).
  - rewrite Hmiss in Hrun. specialize (Hapi (world s)).
    destruct (api _ _) as [o w]. cbn in Hapi. subst o.
    cbn [statement_entry] in Hrun. eapply Hrest; [| |exact Hrun].
    + cbn [cache].
      rewrite write_present by eauto using key_absent_statement.
      by rewrite lookup_insert_eq.
    + intros j' k' Hne Hk'. cbn [cache]. apply write_lookup_ne.
      intros [= ->]. apply Hne, (statement_cache_key_inj ticker name).
      congruence.
Qed.

(** X11: over an empty range of years ([year_to < year_from]) the
    retrieval returns the empty mapping; it reads nothing, requests nothing
    and leaves the state as it is. *)
Theorem statements_empty_range ticker name yf yt filter s :
  (yt < yf)%Z →
  statements ticker name yf yt filter s = (Ok ∅, s).
Proof.
  intros Hlt. rewrite statements_unfold, seqZ_nil by lia. done.
Qed.

(** With every year of the range in the cache, the retrieval is a pure
    function of the cached statements. *)
Lemma statements_from_cache ticker name yf yt filter raw s :
  (∀ i key, (yf ≤ i ≤ yt)%Z →
     statement_cache_key (upper ticker) name "FY" i = Some key →
     cache s !! Some key = Some (ApiResponseStandardizedFinancials (raw i))) →
  statements ticker name yf yt filter s
  = (Ok (entries raw filter ∅ (seqZ yf (yt + 1 - yf))), s).
Proof.
  intros Hc. rewrite statements_unfold.
  rewrite (statement_loop_all_cached (upper ticker) name filter raw); [done|].
  intros i key Hi. apply Hc. apply elem_of_seqZ in Hi. lia.
Qed.

Lemma entries_lookup raw filter yf yt i :
  (yf ≤ i ≤ yt)%Z →
  entries raw filter ∅ (seqZ yf (yt + 1 - yf)) !! i
  = Some (__transform_financial_stmt__ (raw i) filter).
Proof.
  intros Hi.
  rewrite (foldl_insert_years
             (λ i, __transform_financial_stmt__ (raw i) filter)).
  by rewrite decide_True by (apply elem_of_seqZ; lia).
Qed.

(** X12: when the cache holds the statement of every year of the range,
    the retrieval sends no request and leaves the state as it is; the
    entry of each year is built from the cached statement. *)
Theorem statements_fully_cached ticker name yf yt filter raw s :
  (∀ i key, (yf ≤ i ≤ yt)%Z →
     statement_cache_key (upper ticker) name "FY" i = Some key →
     cache s !! Some key = Some (ApiResponseStandardizedFinancials (raw i))) →
  ∃ m,
    statements ticker name yf yt filter s = (Ok m, s) ∧
    ∀ i, (yf ≤ i ≤ yt)%Z →
         m !! i = Some (__transform_financial_stmt__ (raw i) filter).
Proof.
  intros Hc. eexists. split; [by apply (statements_from_cache _ _ _ _ _ raw)|].
  intros i Hi. by apply entries_lookup.
Qed.

(** X13: a successful retrieval leaves the raw statement of every year of
    the range in the cache.  From then on the same retrieval returns the
    same mapping without a request, and so does a retrieval over any part
    of the range with any other tag filter: the filter is applied to the
    cached statement, not stored with it. *)
Theorem statements_served_from_cache_afterwards ticker name yf yt filter
    raw s :
  (∀ i key, (yf ≤ i ≤ yt)%Z →
     statement_cache_key (upper ticker) name "FY" i = Some key →
     always_served api s key (statement_request (upper ticker) name i)
       (ApiResponseStandardizedFinancials (raw i))) →
  ∃ m s1,
    statements ticker name yf yt filter s = (Ok m, s1) ∧
    statements ticker name yf yt filter s1 = (Ok m, s1) ∧
    ∀ filter' yf' yt', (yf ≤ yf')%Z → (yt' ≤ yt)%Z →
      ∃ m', statements ticker name yf' yt' filter' s1 = (Ok m', s1) ∧
            ∀ i, (yf' ≤ i ≤ yt')%Z →
                 m' !! i = Some (__transform_financial_stmt__ (raw i) filter').
Proof.
  intros Hsrc.
  destruct (statement_loop_caches (upper ticker) name filter raw
              (seqZ yf (yt + 1 - yf)) (NoDup_seqZ _ _) ∅ s)
    as (s1 & Hrun & Hcache).
  { intros i key Hi. apply Hsrc. apply elem_of_seqZ in Hi. lia. }
  eexists _, s1. split; [by rewrite statements_unfold, Hrun|].
  assert (∀ i key, (yf ≤ i ≤ yt)%Z →
            statement_cache_key (upper ticker) name "FY" i = Some key →
            cache s1 !! Some key
            = Some (ApiResponseStandardizedFinancials (raw i))) as Hall.
  { intros i key Hi. apply Hcache. apply elem_of_seqZ. lia. }
  split.
  - rewrite statements_unfold.
    rewrite (statement_loop_all_cached (upper ticker) name filter raw); [done|].
    intros i key Hi. apply Hall. apply elem_of_seqZ in Hi. lia.
  - intros filter' yf' yt' Hf Ht. eexists. split.
    + apply (statements_from_cache _ _ _ _ _ raw).
      intros i key Hi. apply Hall. lia.
    + intros i Hi. by apply entries_lookup.
Qed.

(** The requests a loop sends, whatever its outcome: one for some of its
    years, in the order of the loop, each for a year the cache did not
    hold at the start. *)
Lemma statement_loop_calls ticker name filter (l : list Z) :
  NoDup l →
  ∀ acc s r s1,
    for_each l (statement_loop_body api ticker name "FY" filter) acc s
    = (r, s1) →
    ∃ years,
      calls s1 = calls s ++ ((λ i, statement_request ticker name i) <$> years) ∧
      years `sublist_of` l ∧
      ∀ i key, i ∈ years →
        statement_cache_key ticker name "FY" i = Some key →
        is_None (FinancialCache.read (Some key) (cache s)) = true.
Proof.
  induction 1 as [|i l Hni Hnd IH]; intros acc s r s1 Hrun.
  { injection Hrun as _ <-. exists []. rewrite app_nil_r.
    split; [done|]. split; [done|]. intros i key Hi.
    by apply elem_of_nil in Hi. }
  cbn [for_each] in Hrun. unfold bind in Hrun.
  destruct (statement_cache_key ticker name "FY" i) as [ki|] eqn:Hki;
    [|by rewrite statement_cache_key_eq in Hki].
  rewrite (statement_loop_body_run _ _ _ _ _ _ _ ki Hki) in Hrun.
  cbv zeta in Hrun.
  destruct (is_None _) eqn:Hnone.
  - assert (∀ s' : @state World,
              calls s' = calls s ++ [statement_request ticker name i] →
              (∀ j k, j ≠ i → statement_cache_key ticker name "FY" j = Some k →
                      cache s' !! Some k = cache s !! Some k) →
              ∀ years,
                calls s1
                = calls s' ++ ((λ i, statement_request ticker name i) <$> years) →
                years `sublist_of` l →
                (∀ j k, j ∈ years →
                   statement_cache_key ticker name "FY" j = Some k →
                   is_None (FinancialCache.read (Some k) (cache s')) = true) →
                ∃ years,
                  calls s1
                  = calls s
                    ++ ((λ i, statement_request ticker name i) <$> years) ∧
                  years `sublist_of` i :: l ∧
                  ∀ j k, j ∈ years →
                    statement_cache_key ticker name "FY" j = Some k →
                    is_None (FinancialCache.read (Some k) (cache s)) = true)
      as Hstep.
    { intros s' Hcalls Hframe years Hc Hsub Hmiss. exists (i :: years).
      split; [by rewrite Hc, Hcalls, <-app_assoc|].
      split; [by apply sublist_skip|].
      intros j k [->|Hj]%elem_of_cons Hk.
      - by assert (k = ki) as -> by congruence.
      - assert (j ≠ i) as Hne.
        { intros ->. apply Hni. by eapply elem_of_sublist. }
        specialize (Hmiss j k Hj Hk). unfold FinancialCache.read in *.
        by rewrite (Hframe j k Hne Hk) in Hmiss. }
    destruct (api _ _) as [[v|e] w].
    + assert (∀ j k, j ≠ i → statement_cache_key ticker name "FY" j = Some k →
                FinancialCache.write (Some ki) v (cache s) !! Some k
                = cache s !! Some k) as Hframe.
      { intros j k Hne Hk. apply write_lookup_ne. intros [= ->].
        apply Hne, (statement_cache_key_inj ticker name). congruence. }
      destruct (statement_entry filter i acc v) as [acc'|e].
      * destruct (IH _ _ _ _ Hrun) as (years & Hc & Hsub & Hmiss).
        by apply (Hstep (mkState (FinancialCache.write (Some ki) v (cache s)) w
                           (calls s ++ [statement_request ticker name i]))
                   eq_refl Hframe years).
      * injection Hrun as _ <-.
        apply (Hstep (mkState (FinancialCache.write (Some ki) v (cache s)) w
                        (calls s ++ [statement_request ticker name i]))
                 eq_refl Hframe []); [by rewrite app_nil_r| |].
        -- apply sublist_nil_l.
        -- intros j k Hj. by apply elem_of_nil in Hj.
    + injection Hrun as _ <-.
      apply (Hstep (mkState (cache s) w
                      (calls s ++ [statement_request ticker name i]))
               eq_refl (λ _ _ _ _, eq_refl) []);
        [by rewrite app_nil_r|apply sublist_nil_l|].
      intros j k Hj. by apply elem_of_nil in Hj.
  - destruct (statement_entry filter i acc _) as [acc'|e].
    + destruct (IH _ _ _ _ Hrun) as (years & Hc & Hsub & Hmiss).
      exists years. split; [done|]. split; [by apply sublist_cons|done].
    + injection Hrun as _ <-. exists []. rewrite app_nil_r.
      split; [done|]. split; [apply sublist_nil_l|].
      intros j k Hj. by apply elem_of_nil in Hj.
Qed.

(** X14: whatever its outcome, a retrieval only sends requests for
    statements of years of its range that the cache did not hold when it
    started, at most one for each, in ascending order of the years. *)
Theorem statements_requests ticker name yf yt filter s r s1 :
  statements ticker name yf yt filter s = (r, s1) →
  ∃ years,
    calls s1
    = calls s ++ ((λ i, statement_request (upper ticker) name i) <$> years) ∧
    years `sublist_of` seqZ yf (yt + 1 - yf) ∧
    (length (calls s1) ≤ length (calls s) + Z.to_nat (yt + 1 - yf))%nat ∧
    ∀ i key, i ∈ years →
      statement_cache_key (upper ticker) name "FY" i = Some key →
      is_None (FinancialCache.read (Some key) (cache s)) = true.
Proof.
  intros Hrun. rewrite statements_unfold in Hrun.
  destruct (for_each _ _ _ _) as [r' s'] eqn:Hloop.
  destruct (statement_loop_calls (upper ticker) name filter _
              (NoDup_seqZ _ _) _ _ _ _ Hloop) as (years & Hc & Hsub & Hmiss).
  assert (s1 = s') as ->.
  { destruct r' as [m|e]; [by injection Hrun as _ <-|].
    destruct (is_ApiException e); by injection Hrun as _ <-. }
  exists years. split; [done|]. split; [done|]. split; [|done].
  rewrite Hc, length_app, length_fmap.
  apply sublist_length in Hsub. rewrite length_seqZ in Hsub. lia.
Qed.

(** The loop up to its first failing year: the years before it being at
    hand, the exception the service raises for year [k] ends the loop, and
    the statements of the years before [k] are in the cache. *)
Lemma statement_loop_first_raise ticker name yf yt filter raw k e s :
  (yf ≤ k ≤ yt)%Z →
  (∀ i key, (yf ≤ i < k)%Z →
     statement_cache_key ticker name "FY" i = Some key →
     always_served api s key (statement_request ticker name i)
       (ApiResponseStandardizedFinancials (raw i))) →
  (∀ key,
     statement_cache_key ticker name "FY" k = Some key →
     is_None (FinancialCache.read (Some key) (cache s)) = true ∧
     ∀ w, (api (statement_request ticker name k) w).1 = Raises e) →
  ∃ s1,
    for_each (seqZ yf (yt + 1 - yf))
      (statement_loop_body api ticker name "FY" filter) ∅ s
    = (Raise e, s1) ∧
    ∀ i key, (yf ≤ i < k)%Z →
      statement_cache_key ticker name "FY" i = Some key →
      cache s1 !! Some key = Some (ApiResponseStandardizedFinancials (raw i)).
Proof.
  intros Hk Hsrc Hfail.
  assert (seqZ yf (yt + 1 - yf)
          = seqZ yf (k - yf) ++ k :: seqZ (Z.succ k) (yt - k)) as ->.
  { replace (yt + 1 - yf)%Z with ((k - yf) + (yt + 1 - k))%Z by lia.
    rewrite seqZ_app by lia. f_equal.
    replace (yf + (k - yf))%Z with k by lia.
    rewrite seqZ_cons by lia. f_equal. f_equal. lia. }
  destruct (statement_loop_caches ticker name filter raw
              (seqZ yf (k - yf)) (NoDup_seqZ _ _) ∅ s)
    as (s' & Hrun & Hcache).
  { intros i key Hi. apply Hsrc. apply elem_of_seqZ in Hi. lia. }
  rewrite for_each_app, Hrun. cbn [for_each]. unfold bind at 1.
  destruct (statement_cache_key ticker name "FY" k) as [key|] eqn:Hkey;
    [|by rewrite statement_cache_key_eq in Hkey].
  rewrite (statement_loop_body_run _ _ _ _ _ _ _ key Hkey). cbv zeta.
  destruct (Hfail key eq_refl) as [Hmiss Hapi].
  unfold FinancialCache.read in *.
  rewrite (statement_loop_frame _ _ _ _ _ _ _ _ _ Hrun (Some key)).
  - rewrite Hmiss. specialize (Hapi (world s')).
    destruct (api _ _) as [o w]. cbn in Hapi. subst o.
    eexists. split; [done|]. intros i ki Hi Hki. cbn [cache].
    apply Hcache; [|done]. apply elem_of_seqZ. lia.
  - intros i ki Hi Hki [= ->]. apply elem_of_seqZ in Hi.
    assert (i = k) by (apply (statement_cache_key_inj ticker name); congruence).
    lia.
Qed.

(** X15: an exception of the fundamentals service that is not an
    [ApiException] is not translated: it leaves the retrieval as it
    is, neither a [DataError] nor a [ValidationError] (the two series
    operations wrap it into a [ValidationError]). *)
Theorem statements_other_exception_propagates ticker name yf yt filter raw
    k e s :
  is_ApiException e = false →
  (yf ≤ k ≤ yt)%Z →
  (∀ i key, (yf ≤ i < k)%Z →
     statement_cache_key (upper ticker) name "FY" i = Some key →
     always_served api s key (statement_request (upper ticker) name i)
       (ApiResponseStandardizedFinancials (raw i))) →
  (∀ key,
     statement_cache_key (upper ticker) name "FY" k = Some key →
     is_None (FinancialCache.read (Some key) (cache s)) = true ∧
     ∀ w, (api (statement_request (upper ticker) name k) w).1 = Raises e) →
  ∃ s1, statements ticker name yf yt filter s = (Raise e, s1).
Proof.
  intros He Hk Hsrc Hfail.
  destruct (statement_loop_first_raise (upper ticker) name yf yt filter raw
              k e s Hk Hsrc Hfail) as (s1 & Hrun & _).
  exists s1. by rewrite statements_unfold, Hrun, He.
Qed.

(** X16: a retrieval that fails at year [k] returns no mapping, but the
    statements it has fetched for the years before [k] stay in the cache,
    so a later retrieval does not ask for them again. *)
Theorem statements_failure_keeps_fetched_years ticker name yf yt filter raw
    k e s :
  (yf ≤ k ≤ yt)%Z →
  (∀ i key, (yf ≤ i < k)%Z →
     statement_cache_key (upper ticker) name "FY" i = Some key →
     always_served api s key (statement_request (upper ticker) name i)
       (ApiResponseStandardizedFinancials (raw i))) →
  (∀ key,
     statement_cache_key (upper ticker) name "FY" k = Some key →
     is_None (FinancialCache.read (Some key) (cache s)) = true ∧
     ∀ w, (api (statement_request (upper ticker) name k) w).1 = Raises e) →
  ∃ e' s1,
    statements ticker name yf yt filter s = (Raise e', s1) ∧
    (∀ i key, (yf ≤ i < k)%Z →
       statement_cache_key (upper ticker) name "FY" i = Some key →
       cache s1 !! Some key
       = Some (ApiResponseStandardizedFinancials (raw i))) ∧
    ∀ filter', ∃ m,
      statements ticker name yf (k - 1) filter' s1 = (Ok m, s1).
Proof.
  intros Hk Hsrc Hfail.
  destruct (statement_loop_first_raise (upper ticker) name yf yt filter raw
              k e s Hk Hsrc Hfail) as (s1 & Hrun & Hcache).
  assert (∃ e', statements ticker name yf yt filter s = (Raise e', s1))
    as [e' He'].
  { rewrite statements_unfold, Hrun. destruct (is_ApiException e); [|by eexists].
    destruct (raise_with_Some (A := gmap Z (gmap string Z))
                (py_format
                   "Error retrieving ('%s', %d - %d) -> '%s' from Intrinio Fundamentals API"
                   [FStr (upper ticker); FInt yf; FInt yt; FStr name])
                (λ m, DataError m (Some e))) as [msg ->];
      [eexists; reflexivity|].
    by eexists. }
  exists e', s1. split; [done|]. split; [done|]. intros filter'.
  eexists. apply (statements_from_cache _ _ _ _ _ raw).
  intros i key Hi. apply Hcache. lia.
Qed.

(** A write on a miss only adds to a store filled through [write]. *)
Lemma write_on_miss_extends key v (c : FinancialCache.t) :
  FinancialCache.populated c →
  is_None (FinancialCache.read (Some key) c) = true →
  c ⊆ FinancialCache.write (Some key) v c.
Proof.
  intros Hpop Hmiss. unfold FinancialCache.write.
  destruct (_ || _); [done|]. apply insert_subseteq.
  unfold FinancialCache.read in Hmiss.
  destruct (c !! Some key) as [v0|] eqn:Hl; [|done].
  destruct (populated_sound c Hpop _ _ Hl) as [_ Hv0]. by destruct v0.
Qed.

Lemma statement_loop_keeps_entries ticker name filter (l : list Z) :
  ∀ acc s r s1,
    for_each l (statement_loop_body api ticker name "FY" filter) acc s
    = (r, s1) →
    FinancialCache.populated (cache s) →
    cache s ⊆ cache s1 ∧ FinancialCache.populated (cache s1).
Proof.
  induction l as [|i l IH]; intros acc s r s1 Hrun Hpop.
  { by injection Hrun as _ <-. }
  cbn [for_each] in Hrun. unfold bind in Hrun.
  destruct (statement_cache_key ticker name "FY" i) as [ki|] eqn:Hki;
    [|by rewrite statement_cache_key_eq in Hki].
  rewrite (statement_loop_body_run _ _ _ _ _ _ _ ki Hki) in Hrun.
  cbv zeta in Hrun.
  destruct (is_None _) eqn:Hnone.
  - destruct (api _ _) as [[v|e] w].
    + pose proof (write_on_miss_extends ki v _ Hpop Hnone) as Hext.
      pose proof (FinancialCache.populated_write (Some ki) v _ Hpop) as Hpop'.
      destruct (statement_entry filter i acc v) as [acc'|e].
      * destruct (IH _ _ _ _ Hrun Hpop') as [Hsub Hpop1].
        split; [by etrans|done].
      * by injection Hrun as _ <-.
    + by injection Hrun as _ <-.
  - destruct (statement_entry filter i acc _) as [acc'|e].
    + by apply (IH _ _ _ _ Hrun).
    + by injection Hrun as _ <-.
Qed.

End StatementsMore.

(** * What the operations do to the cache, and the latest price *)

Section Transform2.

Implicit Types (l : list StandardizedFinancial.t) (tag : string).
Implicit Types (filter : option (list string)).

Local Abbreviation tag_of :=
  (λ f, DataTag.tag (StandardizedFinancial.data_tag f)).

(** X17: every entry of a normalized statement comes from a line item of
    the raw statement with that tag and value, at a tag the filter lets
    through; every line item at such a tag has an entry; an empty filter
    list lets nothing through, and so does an empty statement. *)
Theorem transform_entries l filter :
  (∀ tag value,
     __transform_financial_stmt__ l filter !! tag = Some value →
     tag_selected filter tag = true ∧
     ∃ f, f ∈ l ∧ tag_of f = tag ∧ StandardizedFinancial.value f = value) ∧
  (∀ f, f ∈ l → tag_selected filter (tag_of f) = true →
        is_Some (__transform_financial_stmt__ l filter !! tag_of f)) ∧
  __transform_financial_stmt__ l (Some []) = ∅ ∧
  __transform_financial_stmt__ [] filter = ∅.
Proof.
  split; [|split; [|split]].
  - intros tag value. rewrite transform_lookup.
    destruct (tag_selected filter tag); [|done].
    intros Hl. split; [done|].
    by apply last_with_Some_elem in Hl.
  - intros f Hf Hsel. rewrite transform_lookup, Hsel.
    by apply (last_with_elem_is_Some tag_of).
  - apply map_eq. intros tag. rewrite transform_lookup, lookup_empty. cbn.
    rewrite bool_decide_eq_false_2; [done|]. apply not_elem_of_nil.
  - done.
Qed.

End Transform2.

Section Latest.

#[local] Instance string_ge_trans : Transitive string_ge.
Proof. intros a b c Hab Hbc. unfold string_ge in *. by etrans. Qed.

#[local] Instance string_ge_total : Total string_ge.
Proof. intros a b. unfold string_ge. apply (total String.le). Qed.

(** On a mapping that is not empty, the key the script picks is the
    greatest date string, and its price is there. *)
Lemma latest_price_greatest (price_dict : gmap string Z) :
  price_dict ≠ ∅ →
  ∃ d price,
    latest_price price_dict = Ok price ∧
    price_dict !! d = Some price ∧
    ∀ d', is_Some (price_dict !! d') → String.le d' d.
Proof.
  intros Hne. unfold latest_price, sorted_keys_reverse.
  pose proof (merge_sort_Permutation string_ge (map_to_list price_dict).*1)
    as Hperm.
  pose proof (StronglySorted_merge_sort string_ge
                (map_to_list price_dict).*1) as Hsorted.
  destruct (merge_sort string_ge (map_to_list price_dict).*1) as [|d rest].
  - apply Permutation_nil_l in Hperm. symmetry in Hperm.
    apply fmap_nil_inv in Hperm.
    by apply map_to_list_empty_iff in Hperm.
  - assert (∀ d', d' ∈ d :: rest ↔ is_Some (price_dict !! d')) as Hkeys.
    { intros d'. rewrite Hperm, list_elem_of_fmap. split.
      - intros ([k v] & -> & Hin). apply elem_of_map_to_list in Hin.
        by exists v.
      - intros [v Hv]. exists (d', v). split; [done|].
        by apply elem_of_map_to_list. }
    destruct (proj1 (Hkeys d) ltac:(by left)) as [price Hprice].
    exists d, price. rewrite Hprice. split; [done|]. split; [done|].
    intros d' Hd'. apply Hkeys in Hd'.
    apply StronglySorted_cons in Hsorted as [Hall _].
    apply elem_of_cons in Hd' as [->|Hd']; [done|].
    rewrite Forall_forall in Hall. by apply Hall.
Qed.

End Latest.

Section ProviderInvariants.

Context {World : Type}.
Variable api : request → World → api_outcome * World.
Variable date_to_string : Date → string.
Variable get_fiscal_year_period : Z → Z → string * string.

Implicit Types (s : @state World) (ticker tag key : string) (v : pyobj).

Local Abbreviation prices := (get_daily_stock_close_prices api date_to_string).
Local Abbreviation metrics :=
  (__read_financial_metrics__ api get_fiscal_year_period).
Local Abbreviation statements :=
  (__read_historical_financial_statement__ api).

(** X18: on a cache filled through [write], no operation of the provider
    removes or replaces an entry: the cache after a call contains the
    cache before it, whatever the outcome of the call, and is again a
    cache filled through [write]. *)
Theorem operations_keep_cache_entries ticker sd ed sy ey tag name yf yt
    filter s :
  FinancialCache.populated (cache s) →
  (cache s ⊆ cache (prices ticker sd ed s).2 ∧
   FinancialCache.populated (cache (prices ticker sd ed s).2)) ∧
  (cache s ⊆ cache (metrics ticker sy ey tag s).2 ∧
   FinancialCache.populated (cache (metrics ticker sy ey tag s).2)) ∧
  (cache s ⊆ cache (statements ticker name yf yt filter s).2 ∧
   FinancialCache.populated (cache (statements ticker name yf yt filter s).2)).
Proof.
  intros Hpop. split; [|split].
  - rewrite (get_daily_stock_close_prices_run _ _ _ _ _ _ _
               (closing_prices_cache_key_eq _ _ _)).
    cbv zeta. destruct (is_None _) eqn:Hmiss; [|done].
    destruct (api _ _) as [[v|e] w]; [|done]. cbn [snd cache].
    split; [by apply write_on_miss_extends|].
    by apply FinancialCache.populated_write.
  - rewrite (__read_financial_metrics___run _ _ _ _ _ _ _ _
               (metric_cache_key_eq _ _ _ _ _)).
    cbv zeta. destruct (is_None _) eqn:Hmiss; [|done].
    destruct (api _ _) as [[v|e] w]; [|done]. cbn [snd cache].
    split; [by apply write_on_miss_extends|].
    by apply FinancialCache.populated_write.
  - rewrite statements_unfold.
    destruct (for_each _ _ _ _) as [r s1] eqn:Hrun.
    destruct (statement_loop_keeps_entries _ _ _ _ _ _ _ _ _ Hrun Hpop).
    by destruct r.
Qed.

(** X19: the script's pick of the latest price never fails on the mapping
    of a successful close-price fetch (which is never empty): it is the
    price the mapping holds at its greatest date string. *)
Theorem latest_price_after_fetch ticker sd ed s m s1 :
  prices ticker sd ed s = (Ok m, s1) →
  ∃ d price,
    latest_price m = Ok price ∧
    m !! d = Some price ∧
    ∀ d', is_Some (m !! d') → String.le d' d.
Proof.
  intros Hrun. apply latest_price_greatest.
  destruct (prices_rerun _ _ _ _ _ _ _ _ Hrun) as (key & l & _ & _ & Hl & ->).
  by apply foldl_insert_nonempty.
Qed.

End ProviderInvariants.

(** * More runs on the test doubles *)

Section MoreScenarios.

Local Abbreviation fake_metrics :=
  (__read_financial_metrics__ Fake.api Fake.get_fiscal_year_period).
Local Abbreviation fake_statements :=
  (__read_historical_financial_statement__ Fake.api).

(** A run that returns a value is not one that raises. *)
Local Ltac not_raised H :=
  exfalso;
  apply (f_equal (λ r, match r.1 with Ok _ => true | Raise _ => false end)) in H;
  vm_compute in H; discriminate H.

Lemma close_prices_service_error_witness :
  (∃ msg, Fake.prices "NOPE" Fake.start
          = (Raise (DataError msg (Some (ApiException 404 "Not Found"))),
             mkState ∅ tt
               [get_security_stock_prices "NOPE" "2019-10-01" "2019-10-05"
                  "daily" 100])) ∧
  (∃ msg s1,
     get_daily_stock_close_prices Offline.api Fake.date_to_string "AAPL"
       (mkDate 2019 10 1) (mkDate 2019 10 5) Fake.start
     = (Raise (ValidationError msg (Some (Exception "MaxRetryError"))), s1)).
Proof.
  split.
  - apply (close_prices_service_error Fake.api Fake.date_to_string "NOPE"
             (mkDate 2019 10 1) (mkDate 2019 10 5) Fake.start
             "intrinio-NOPE-2019-10-01-2019-10-05-closing-prices"
             (ApiException 404 "Not Found") tt);
      [reflexivity|apply fake_start_miss|reflexivity].
  - destruct (close_prices_service_error Offline.api Fake.date_to_string "AAPL"
                (mkDate 2019 10 1) (mkDate 2019 10 5) Fake.start
                "intrinio-AAPL-2019-10-01-2019-10-05-closing-prices"
                (Exception "MaxRetryError") tt) as [msg Hrun];
      [reflexivity|apply fake_start_miss|reflexivity|].
    exists msg. eexists. exact Hrun.
Defined.

Lemma metrics_service_error_witness :
  ∃ msg s1,
    fake_metrics "NOPE" 2017 2018 "totalrevenue" Fake.start
    = (Raise (DataError msg (Some (ApiException 404 "Not Found"))), s1) ∧
    cache s1 = ∅ ∧ length (calls s1) = 1%nat.
Proof.
  destruct (metrics_service_error Fake.api Fake.get_fiscal_year_period "NOPE"
              2017 2018 "totalrevenue" Fake.start
              "intrinio-metric-NOPE-2017-2018-yearly-totalrevenue"
              (ApiException 404 "Not Found") tt) as [msg Hrun];
    [reflexivity|apply fake_start_miss|reflexivity|].
  exists msg. eexists. split; [exact Hrun|]. split; reflexivity.
Defined.

Lemma series_cache_hit_witness :
  Fake.prices "AAPL" Cached.garbled
  = (Raise (AttributeError "stock_prices"), Cached.garbled).
Proof.
  destruct (series_cache_hit Fake.api Fake.date_to_string
              Fake.get_fiscal_year_period "AAPL" (mkDate 2019 10 1)
              (mkDate 2019 10 5) 2018 2018 "totalrevenue" Cached.garbled
              (PyStr "not a response") eq_refl) as [Hprices _].
  destruct (Hprices "intrinio-AAPL-2019-10-01-2019-10-05-closing-prices")
    as (r & Hrun & Hclass); [reflexivity|apply lookup_singleton_eq|].
  unfold Fake.prices. rewrite Hrun, Hclass; [reflexivity|]. intros l. discriminate.
Defined.

Lemma absent_response_not_cached_witness :
  get_daily_stock_close_prices Silent.api Fake.date_to_string "AAPL"
    (mkDate 2019 10 1) (mkDate 2019 10 5) Fake.start
  = (Raise (AttributeError "stock_prices"),
     mkState ∅ tt
       [get_security_stock_prices "AAPL" "2019-10-01" "2019-10-05"
          "daily" 100]).
Proof.
  destruct (absent_response_not_cached Silent.api Fake.date_to_string
              Fake.get_fiscal_year_period "AAPL" (mkDate 2019 10 1)
              (mkDate 2019 10 5) 2018 2018 "totalrevenue" Fake.start
              PyNone tt eq_refl) as [Hprices _].
  apply (Hprices "intrinio-AAPL-2019-10-01-2019-10-05-closing-prices");
    [reflexivity|apply fake_start_miss|reflexivity].
Defined.

Lemma metrics_second_call_cached_witness :
  ∃ m s1,
    fake_metrics "AAPL" 2017 2018 "totalrevenue" Fake.start = (Ok m, s1) ∧
    fake_metrics "AAPL" 2017 2018 "totalrevenue" s1 = (Ok m, s1).
Proof.
  destruct (fake_metrics "AAPL" 2017 2018 "totalrevenue" Fake.start)
    as [[m|e] s1] eqn:Hrun; [|not_raised Hrun].
  exists m, s1. split; [reflexivity|].
  destruct (metrics_second_call_cached _ _ _ _ _ _ _ _ _ Hrun)
    as (key & raw & _ & _ & _ & Hsecond).
  exact Hsecond.
Defined.

Lemma single_year_metric_reuses_series_entry_witness :
  ∃ m s1,
    fake_metrics "AAPL" 2018 2018 "totalrevenue" Fake.start = (Ok m, s1) ∧
    __read_financial_metric__ Fake.api Fake.get_fiscal_year_period
      "AAPL" 2018 "totalrevenue" s1
    = (match m !! 2018%Z with
       | Some v => Ok v
       | None => Raise (KeyError 2018)
       end, s1).
Proof.
  destruct (fake_metrics "AAPL" 2018 2018 "totalrevenue" Fake.start)
    as [[m|e] s1] eqn:Hrun; [|not_raised Hrun].
  exists m, s1. split; [reflexivity|].
  exact (single_year_metric_reuses_series_entry _ _ _ _ _ _ _ _ Hrun).
Defined.

Lemma metrics_series_content_witness :
  ∃ m s1,
    fake_metrics "AAPL" 2017 2018 "totalrevenue" Fake.start = (Ok m, s1) ∧
    m ≠ ∅.
Proof.
  destruct (fake_metrics "AAPL" 2017 2018 "totalrevenue" Fake.start)
    as [[m|e] s1] eqn:Hrun; [|not_raised Hrun].
  exists m, s1. split; [reflexivity|].
  exact (proj1 (metrics_series_content _ _ _ _ _ _ _ _ _ Hrun)).
Defined.

Lemma close_prices_content_witness :
  ∃ m s1, Fake.prices "AAPL" Fake.start = (Ok m, s1) ∧ m ≠ ∅.
Proof.
  destruct (Fake.prices "AAPL" Fake.start) as [[m|e] s1] eqn:Hrun;
    [|not_raised Hrun].
  exists m, s1. split; [reflexivity|].
  exact (proj1 (close_prices_content Fake.api Fake.date_to_string "AAPL"
                  (mkDate 2019 10 1) (mkDate 2019 10 5) Fake.start m s1 Hrun)).
Defined.

Lemma statements_empty_range_witness :
  fake_statements "AAPL" "income_statement" 2019 2018 None Fake.start
  = (Ok ∅, Fake.start).
Proof. apply statements_empty_range. lia. Defined.

Lemma cached_statements_lookup (i : Z) key :
  (2018 ≤ i ≤ 2019)%Z →
  statement_cache_key (upper "AAPL") "income_statement" "FY" i = Some key →
  cache Cached.statements !! Some key
  = Some (ApiResponseStandardizedFinancials (Fake.income_statement i)).
Proof.
  intros Hi Hkey.
  assert (i = 2018 ∨ i = 2019)%Z as [-> | ->] by lia;
    vm_compute in Hkey; injection Hkey as <-; vm_compute; reflexivity.
Qed.

Lemma statements_fully_cached_witness :
  ∃ m,
    fake_statements "AAPL" "income_statement" 2018 2019
      (Some ["totalrevenue"]) Cached.statements
    = (Ok m, Cached.statements).
Proof.
  destruct (statements_fully_cached Fake.api "AAPL" "income_statement"
              2018 2019 (Some ["totalrevenue"]) Fake.income_statement
              Cached.statements) as (m & Hrun & _).
  - intros i key. apply cached_statements_lookup.
  - exists m. exact Hrun.
Defined.

Lemma fake_statements_served (i : Z) key :
  (2018 ≤ i ≤ 2019)%Z →
  statement_cache_key (upper "AAPL") "income_statement" "FY" i = Some key →
  always_served Fake.api Fake.start key
    (get_fundamental_standardized_financials
       (statement_id (upper "AAPL") "income_statement" i))
    (ApiResponseStandardizedFinancials (Fake.income_statement i)).
Proof.
  intros Hi Hkey. right. split; [apply fake_start_miss|].
  intros w. assert (i = 2018 ∨ i = 2019)%Z as [-> | ->] by lia; reflexivity.
Qed.

Lemma statements_served_from_cache_afterwards_witness :
  ∃ m s1,
    fake_statements "AAPL" "income_statement" 2018 2019
      (Some ["totalrevenue"]) Fake.start = (Ok m, s1) ∧
    fake_statements "AAPL" "income_statement" 2018 2019
      (Some ["totalrevenue"]) s1 = (Ok m, s1) ∧
    ∃ m', fake_statements "AAPL" "income_statement" 2019 2019 None s1
          = (Ok m', s1).
Proof.
  destruct (statements_served_from_cache_afterwards Fake.api "AAPL"
              "income_statement" 2018 2019 (Some ["totalrevenue"])
              Fake.income_statement Fake.start)
    as (m & s1 & Hfirst & Hsecond & Hany).
  - intros i key. apply fake_statements_served.
  - exists m, s1. split; [exact Hfirst|]. split; [exact Hsecond|].
    destruct (Hany None 2019%Z 2019%Z ltac:(lia) ltac:(lia)) as (m' & Hrun & _).
    exists m'. exact Hrun.
Defined.

Lemma statements_requests_witness :
  ∃ r s1,
    fake_statements "AAPL" "income_statement" 2018 2020 None Fake.start
    = (r, s1) ∧
    (length (calls s1) ≤ 3)%nat.
Proof.
  destruct (fake_statements "AAPL" "income_statement" 2018 2020 None Fake.start)
    as [r s1] eqn:Hrun.
  exists r, s1. split; [reflexivity|].
  destruct (statements_requests _ _ _ _ _ _ _ _ _ Hrun)
    as (years & _ & _ & Hlen & _).
  exact Hlen.
Defined.

Lemma statements_other_exception_propagates_witness :
  ∃ s1,
    __read_historical_financial_statement__ Offline.api "AAPL"
      "income_statement" 2018 2019 None Fake.start
    = (Raise (Exception "MaxRetryError"), s1).
Proof.
  apply (statements_other_exception_propagates Offline.api "AAPL"
           "income_statement" 2018 2019 None Fake.income_statement 2018).
  - reflexivity.
  - lia.
  - intros i key Hi. lia.
  - intros key Hkey. split; [apply fake_start_miss|]. intros w. reflexivity.
Defined.

Lemma statements_failure_keeps_fetched_years_witness :
  ∃ e' s1,
    fake_statements "AAPL" "income_statement" 2018 2020 None Fake.start
    = (Raise e', s1) ∧
    ∃ m, fake_statements "AAPL" "income_statement" 2018 (2020 - 1) None s1
         = (Ok m, s1).
Proof.
  destruct (statements_failure_keeps_fetched_years Fake.api "AAPL"
              "income_statement" 2018 2020 None Fake.income_statement 2020
              (ApiException 404 "Not Found") Fake.start)
    as (e' & s1 & Hrun & _ & Hretry).
  - lia.
  - intros i key Hi. apply fake_statements_served. lia.
  - intros key Hkey. split; [apply fake_start_miss|]. intros w. reflexivity.
  - exists e', s1. split; [exact Hrun|]. apply Hretry.
Defined.

Lemma transform_entries_witness :
  is_Some (__transform_financial_stmt__ (Fake.income_statement 2018)
             (Some ["totalrevenue"]) !! "totalrevenue") ∧
  __transform_financial_stmt__ (Fake.income_statement 2018) (Some []) = ∅.
Proof.
  destruct (transform_entries (Fake.income_statement 2018)
              (Some ["totalrevenue"])) as (_ & Hcomplete & _ & _).
  destruct (transform_entries (Fake.income_statement 2018) (Some []))
    as (_ & _ & Hnone & _).
  split; [|exact Hnone].
  apply (Hcomplete (Fake.financial "totalrevenue" 1000)); [|reflexivity].
  apply list_elem_of_here.
Defined.

Lemma cached_statements_populated :
  FinancialCache.populated (cache Cached.statements).
Proof.
  change (FinancialCache.populated
            (FinancialCache.write
               (Some "intrinio-statement-AAPL-income_statement-FY-2018")
               (ApiResponseStandardizedFinancials (Fake.income_statement 2018))
               (FinancialCache.write
                  (Some "intrinio-statement-AAPL-income_statement-FY-2019")
                  (ApiResponseStandardizedFinancials
                     (Fake.income_statement 2019))
                  ∅))).
  do 2 apply FinancialCache.populated_write.
  apply FinancialCache.populated_empty.
Qed.

Lemma operations_keep_cache_entries_witness :
  let s1 := (Fake.prices "AAPL" Cached.statements).2 in
  cache Cached.statements ⊆ cache s1 ∧
  cache s1 !! Some "intrinio-statement-AAPL-income_statement-FY-2018"
  = Some (ApiResponseStandardizedFinancials (Fake.income_statement 2018)) ∧
  cache s1 !! Some "intrinio-statement-AAPL-income_statement-FY-2019"
  = Some (ApiResponseStandardizedFinancials (Fake.income_statement 2019)) ∧
  is_Some (cache s1
             !! Some "intrinio-AAPL-2019-10-01-2019-10-05-closing-prices") ∧
  cache Cached.statements
    !! Some "intrinio-AAPL-2019-10-01-2019-10-05-closing-prices" = None.
Proof.
  cbv zeta.
  destruct (operations_keep_cache_entries Fake.api Fake.date_to_string
              Fake.get_fiscal_year_period "AAPL" (mkDate 2019 10 1)
              (mkDate 2019 10 5) 2018 2018 "totalrevenue" "income_statement"
              2018 2019 None Cached.statements cached_statements_populated)
    as [[Hkept _] _].
  split; [exact Hkept|].
  split; [|split; [|split]].
  - assert (cache Cached.statements
            !! Some "intrinio-statement-AAPL-income_statement-FY-2018"
            = Some (ApiResponseStandardizedFinancials
                      (Fake.income_statement 2018))) as Hheld
      by (vm_compute; reflexivity).
    exact (lookup_weaken _ _ _ _ Hheld Hkept).
  - assert (cache Cached.statements
            !! Some "intrinio-statement-AAPL-income_statement-FY-2019"
            = Some (ApiResponseStandardizedFinancials
                      (Fake.income_statement 2019))) as Hheld
      by (vm_compute; reflexivity).
    exact (lookup_weaken _ _ _ _ Hheld Hkept).
  - eexists. vm_compute. reflexivity.
  - vm_compute. reflexivity.
Defined.

Lemma latest_price_after_fetch_witness :
  ∃ m s1 d price,
    Fake.prices "AAPL" Fake.start = (Ok m, s1) ∧
    latest_price m = Ok price ∧ m !! d = Some price.
Proof.
  destruct (Fake.prices "AAPL" Fake.start) as [[m|e] s1] eqn:Hrun;
    [|not_raised Hrun].
  destruct (latest_price_after_fetch Fake.api Fake.date_to_string "AAPL"
              (mkDate 2019 10 1) (mkDate 2019 10 5) Fake.start m s1 Hrun)
    as (d & price & Hlatest & Hprice & _).
  exists m, s1, d, price. split; [reflexivity|]. split; [exact Hlatest|exact Hprice].
Defined.

Lemma operations_write_under_their_keys_witness :
  cache (Fake.prices "AAPL" Cached.statements).2
  !! Some "intrinio-statement-AAPL-income_statement-FY-2018"
  = cache Cached.statements
    !! Some "intrinio-statement-AAPL-income_statement-FY-2018".
Proof.
  destruct (operations_write_under_their_keys Fake.api Fake.date_to_string
              Fake.get_fiscal_year_period "AAPL" (mkDate 2019 10 1)
              (mkDate 2019 10 5) 2018 2018 "totalrevenue" "income_statement"
              2018 2019 None Cached.statements
              (Some "intrinio-statement-AAPL-income_statement-FY-2018"))
    as [Hprices _].
  apply Hprices. vm_compute. discriminate.
Defined.

(** The latest price of the AAPL scenario is that of 2019-10-02. *)
Example aapl_latest_price :
  match (Fake.prices "AAPL" Fake.start).1 with
  | Ok m => latest_price m
  | Raise e => Raise e
  end = Ok 101%Z.
Proof. vm_compute. reflexivity. Qed.

End MoreScenarios.
